(** * LED indicator widget (src/leds.c): shallow embedding and verification

    The C file drives one indicator LED from a Zephyr message queue of
    blink items.  Three ZMK event listeners and a boot thread put items
    on the queue, one thread takes them off and pulses the LED.

    The embedding keeps the program's shape: the enum and the struct are
    an inductive type and a record, the Kconfig symbols are the fields of
    a [config] record, the queries answered by ZMK are the fields of an
    [env] record, and every function of the file is a command of a small
    state monad over a [world] that holds the message queue, the
    [initialized] flag, the LED and a log of the calls made to the
    outside (LED driver, [k_sleep], message queue, battery gauge).
    [LOG_INF]/[LOG_DBG] calls have no effect on that state and are left
    out. *)

From Stdlib Require Import ZArith List Bool Lia.
Import ListNotations.
Local Open Scope Z_scope.

(** ** Data model *)

(** [enum blink_rate_t]; [BLINK_OFF] has the value 0. *)
Inductive blink_rate_t : Type :=
| BLINK_OFF
| BLINK_SLOW
| BLINK_MEDIUM
| BLINK_FAST
| BLINK_FRANTIC.

(** [struct blink_item]; the two [uint16_t] fields are integers in
    [0, 65535]. *)
Record blink_item : Type := mk_blink_item {
  rate : blink_rate_t;
  duration_ms : Z;
  first_item : bool;
  sleep_ms : Z
}.

(** Storing an [int] constant in a [uint16_t] field reduces it modulo 2^16. *)
Definition u16 (z : Z) : Z := z mod 65536.

(** Members that a designated initializer does not name are zero:
    [BLINK_OFF], 0, [false], 0. *)
Definition blink_item_zero : blink_item :=
  {| rate := BLINK_OFF; duration_ms := 0; first_item := false; sleep_ms := 0 |}.

Definition with_rate (r : blink_rate_t) (b : blink_item) : blink_item :=
  {| rate := r; duration_ms := duration_ms b;
     first_item := first_item b; sleep_ms := sleep_ms b |}.

Definition with_duration_ms (d : Z) (b : blink_item) : blink_item :=
  {| rate := rate b; duration_ms := d;
     first_item := first_item b; sleep_ms := sleep_ms b |}.

Definition with_first_item (f : bool) (b : blink_item) : blink_item :=
  {| rate := rate b; duration_ms := duration_ms b;
     first_item := f; sleep_ms := sleep_ms b |}.

Definition with_sleep_ms (s : Z) (b : blink_item) : blink_item :=
  {| rate := rate b; duration_ms := duration_ms b;
     first_item := first_item b; sleep_ms := s |}.

(** The build-time configuration: the [CONFIG_RGBLED_WIDGET_*] integers
    and the [IS_ENABLED] switches the file tests. *)
Record config : Type := mk_config {
  OUTPUT_BLINK_MS : Z;
  BATTERY_BLINK_MS : Z;
  LAYER_BLINK_MS : Z;
  INTERVAL_MS : Z;
  BATTERY_LEVEL_HIGH : Z;
  BATTERY_LEVEL_LOW : Z;
  BATTERY_LEVEL_CRITICAL : Z;
  ZMK_BLE : bool;
  ZMK_SPLIT : bool;
  ZMK_SPLIT_ROLE_CENTRAL : bool;
  ZMK_BATTERY_REPORTING : bool;
  SHOW_LAYER_CHANGE : bool
}.

(** [!IS_ENABLED(CONFIG_ZMK_SPLIT) || IS_ENABLED(CONFIG_ZMK_SPLIT_ROLE_CENTRAL)] *)
Definition central_role (c : config) : bool :=
  negb (ZMK_SPLIT c) || ZMK_SPLIT_ROLE_CENTRAL c.

(** What the other ZMK subsystems answer when asked.  The battery gauge
    is asked several times during boot: its field gives the answer to
    the k-th call. *)
Record env : Type := mk_env {
  zmk_ble_active_profile_index : Z;
  zmk_ble_active_profile_is_connected : bool;
  zmk_ble_active_profile_is_open : bool;
  zmk_split_bt_peripheral_is_connected : bool;
  zmk_keymap_highest_layer_active : Z;
  zmk_battery_state_of_charge : nat -> Z
}.

(** Payloads of the two events whose content the listeners read. *)
Record zmk_battery_state_changed : Type := mk_battery_ev {
  state_of_charge : Z
}.

Record zmk_layer_state_changed : Type := mk_layer_ev {
  layer : Z;
  state : bool;
  timestamp : Z
}.

(** Calls that leave the file, in the order they are made. *)
Inductive action : Type :=
| A_led_on
| A_led_off
| A_sleep (ms : Z)
| A_put (b : blink_item) (accepted : bool)
| A_get (b : blink_item)
| A_soc (level : Z).

Record world : Type := mk_world {
  led_msgq : list blink_item;
  initialized : bool;
  led : bool;
  soc_calls : nat;
  log : list action
}.

(** The state at power-up: empty queue, [initialized = false]. *)
Definition boot_world : world :=
  {| led_msgq := []; initialized := false; led := false;
     soc_calls := 0%nat; log := [] |}.

(** ** The message queue *)

(** [K_MSGQ_DEFINE(led_msgq, sizeof(struct blink_item), 16, 1)] *)
Definition led_msgq_capacity : nat := 16.

(** Modelled from the spec: the body of Zephyr's [k_msgq_put] is not part
    of the repository; this is [try_enqueue(req) -> bool] of the bounded
    FIFO as the specification words it (true if accepted, false if the
    queue was full, the request then being discarded), for the call with
    [K_NO_WAIT] that the file makes everywhere. *)
Definition try_enqueue (q : list blink_item) (b : blink_item)
  : bool * list blink_item :=
  if (length q <? led_msgq_capacity)%nat then (true, q ++ [b]) else (false, q).

(** Modelled from the spec: [dequeue_blocking() -> BlinkRequest], the
    oldest item; [None] stands for the consumer staying blocked on an
    empty queue. *)
Definition dequeue_blocking (q : list blink_item)
  : option (blink_item * list blink_item) :=
  match q with
  | [] => None
  | b :: q' => Some (b, q')
  end.

(** ** Commands *)

(** A command runs on a world and either returns a value and the next
    world, or does not return ([None]: blocked for ever on the empty
    queue, or a loop that ran out of fuel). *)
Definition M (A : Type) : Type := world -> option (A * world).

Definition ret {A : Type} (a : A) : M A := fun w => Some (a, w).

Definition bind {A B : Type} (m : M A) (f : A -> M B) : M B :=
  fun w => match m w with
           | Some (a, w') => f a w'
           | None => None
           end.

Declare Scope cmd_scope.
Delimit Scope cmd_scope with cmd.
Notation "x <- m ;; k" := (bind m (fun x => k))
  (at level 61, m at next level, right associativity) : cmd_scope.
Notation "m ;; k" := (bind m (fun _ => k))
  (at level 61, right associativity) : cmd_scope.
Local Open Scope cmd_scope.

Definition emit (a : action) (w : world) : world :=
  {| led_msgq := led_msgq w; initialized := initialized w; led := led w;
     soc_calls := soc_calls w; log := log w ++ [a] |}.

Definition led_on : M unit := fun w =>
  Some (tt, emit A_led_on
              {| led_msgq := led_msgq w; initialized := initialized w;
                 led := true; soc_calls := soc_calls w; log := log w |}).

Definition led_off : M unit := fun w =>
  Some (tt, emit A_led_off
              {| led_msgq := led_msgq w; initialized := initialized w;
                 led := false; soc_calls := soc_calls w; log := log w |}).

Definition k_sleep (ms : Z) : M unit := fun w => Some (tt, emit (A_sleep ms) w).

(** [k_msgq_put(&led_msgq, &blink, K_NO_WAIT)]; the value is [true] for
    the return code 0. *)
Definition k_msgq_put (b : blink_item) : M bool := fun w =>
  let (ok, q) := try_enqueue (led_msgq w) b in
  Some (ok, emit (A_put b ok)
              {| led_msgq := q; initialized := initialized w; led := led w;
                 soc_calls := soc_calls w; log := log w |}).

(** [k_msgq_get(&led_msgq, &blink, K_FOREVER)] *)
Definition k_msgq_get : M blink_item := fun w =>
  match dequeue_blocking (led_msgq w) with
  | None => None
  | Some (b, q) =>
      Some (b, emit (A_get b)
                 {| led_msgq := q; initialized := initialized w; led := led w;
                    soc_calls := soc_calls w; log := log w |})
  end.

(** One call of [zmk_battery_state_of_charge()]. *)
Definition battery_state_of_charge (e : env) : M Z := fun w =>
  let v := zmk_battery_state_of_charge e (soc_calls w) in
  Some (v, emit (A_soc v)
             {| led_msgq := led_msgq w; initialized := initialized w;
                led := led w; soc_calls := S (soc_calls w); log := log w |}).

Definition get_initialized : M bool := fun w => Some (initialized w, w).

Definition set_initialized (b : bool) : M unit := fun w =>
  Some (tt, {| led_msgq := led_msgq w; initialized := b; led := led w;
               soc_calls := soc_calls w; log := log w |}).

(** ** The renderer *)

Definition led_do_blink (r : blink_rate_t) : M unit :=
  match r with
  | BLINK_OFF => led_off
  | BLINK_SLOW => led_on ;; k_sleep 300 ;; led_off ;; k_sleep 300
  | BLINK_MEDIUM => led_on ;; k_sleep 150 ;; led_off ;; k_sleep 150
  | BLINK_FAST => led_on ;; k_sleep 80 ;; led_off ;; k_sleep 80
  | BLINK_FRANTIC => led_on ;; k_sleep 20 ;; led_off ;; k_sleep 20
  end.

(** The body of the [while (true)] loop of [led_process_thread]. *)
Definition led_process_iteration (c : config) : M unit :=
  blink <- k_msgq_get ;;
  led_do_blink (rate blink) ;;
  if 0 <? sleep_ms blink
  then k_sleep (sleep_ms blink)
  else k_sleep (INTERVAL_MS c).

(** The first [n] rounds of the perpetual loop. *)
Fixpoint led_process_thread (n : nat) (c : config) : M unit :=
  match n with
  | O => ret tt
  | S n' => led_process_iteration c ;; led_process_thread n' c
  end.

(** ** The listeners *)

(** [output_blink]: the item starts as [{.duration_ms = ...}] and gets
    its rate from the role's branch. *)
Definition output_blink (c : config) (e : env) : M unit :=
  let blink := with_duration_ms (u16 (OUTPUT_BLINK_MS c)) blink_item_zero in
  let blink :=
    if central_role c then
      if zmk_ble_active_profile_is_connected e then with_rate BLINK_OFF blink
      else if zmk_ble_active_profile_is_open e then with_rate BLINK_FAST blink
      else with_rate BLINK_SLOW blink
    else
      if zmk_split_bt_peripheral_is_connected e then with_rate BLINK_SLOW blink
      else with_rate BLINK_FAST blink in
  k_msgq_put blink ;; ret tt.

(** Listener of [zmk_ble_active_profile_changed] (central) or
    [zmk_split_peripheral_status_changed] (peripheral); the event itself
    is not read. *)
Definition led_output_listener_cb (c : config) (e : env) : M Z :=
  init <- get_initialized ;;
  (if init then output_blink c e else ret tt) ;;
  ret 0.

Definition led_battery_listener_cb (c : config)
    (eh : zmk_battery_state_changed) : M Z :=
  init <- get_initialized ;;
  if negb init then ret 0
  else
    let battery_level := state_of_charge eh in
    if (0 <? battery_level) && (battery_level <=? BATTERY_LEVEL_CRITICAL c)
    then
      let blink :=
        with_rate BLINK_FAST
          (with_duration_ms (u16 (BATTERY_BLINK_MS c)) blink_item_zero) in
      k_msgq_put blink ;; ret 0
    else ret 0.

(** [for (int i = from; i < bound; i++) body(i)].  The test is made on
    every round; a run that still wants a round when the fuel is used up
    does not return. *)
Fixpoint for_loop (fuel : nat) (i bound : Z) (body : Z -> M unit) : M unit :=
  if i <? bound then
    match fuel with
    | O => fun _ => None
    | S fuel' => body i ;; for_loop fuel' (i + 1) bound body
    end
  else ret tt.

(** The two [static const] items of [led_layer_listener_cb]. *)
Definition layer_blink (c : config) : blink_item :=
  with_sleep_ms (u16 (LAYER_BLINK_MS c))
    (with_rate BLINK_FRANTIC
       (with_duration_ms (u16 (LAYER_BLINK_MS c)) blink_item_zero)).

Definition layer_final_blink (c : config) : blink_item :=
  with_rate BLINK_MEDIUM
    (with_duration_ms (u16 (LAYER_BLINK_MS c)) blink_item_zero).

Definition led_layer_listener_cb (c : config) (e : env)
    (eh : zmk_layer_state_changed) : M Z :=
  init <- get_initialized ;;
  if negb init then ret 0
  else if negb (state eh) then ret 0
  else
    let index := zmk_keymap_highest_layer_active e in
    for_loop (Z.to_nat index) 0 index
      (fun i =>
         if i <? index - 1
         then k_msgq_put (layer_blink c) ;; ret tt
         else k_msgq_put (layer_final_blink c) ;; ret tt) ;;
    ret 0.

(** ** The boot thread *)

(** [while (battery_level == 0 && retry++ < 10) { k_sleep(100); read }].
    The increment happens only when the left operand held; [retry] is
    not read after the loop, the level is the result. *)
Fixpoint battery_retry_loop (fuel : nat) (e : env) (battery_level retry : Z)
  : M Z :=
  if battery_level =? 0 then
    if retry <? 10 then
      match fuel with
      | O => fun _ => None
      | S fuel' =>
          k_sleep 100 ;;
          battery_level' <- battery_state_of_charge e ;;
          battery_retry_loop fuel' e battery_level' (retry + 1)
      end
    else ret battery_level
  else ret battery_level.

(** The [if]/[else if] chain that fills [blink.rate]; its last branch
    assigns nothing. *)
Definition init_battery_rate (c : config) (battery_level : Z)
    (blink : blink_item) : blink_item :=
  if battery_level =? 0 then with_rate BLINK_OFF blink
  else if BATTERY_LEVEL_HIGH c <=? battery_level then with_rate BLINK_SLOW blink
  else if BATTERY_LEVEL_LOW c <=? battery_level then with_rate BLINK_FAST blink
  else blink.

(** The [#if IS_ENABLED(CONFIG_ZMK_BATTERY_REPORTING)] block of
    [led_init_thread]. *)
Definition led_init_battery (c : config) (e : env) : M unit :=
  let blink :=
    with_first_item true
      (with_duration_ms (u16 (BATTERY_BLINK_MS c)) blink_item_zero) in
  battery_level <- battery_state_of_charge e ;;
  battery_level <- battery_retry_loop 10 e battery_level 0 ;;
  let blink := init_battery_rate c battery_level blink in
  k_msgq_put blink ;;
  k_sleep (BATTERY_BLINK_MS c + INTERVAL_MS c).

Definition led_init_thread (c : config) (e : env) : M unit :=
  (if ZMK_BATTERY_REPORTING c then led_init_battery c e else ret tt) ;;
  (if ZMK_BLE c then output_blink c e else ret tt) ;;
  set_initialized true.

(** ** Reading the log *)

(** The items handed to [k_msgq_put], accepted or not, in call order. *)
Fixpoint put_calls (l : list action) : list blink_item :=
  match l with
  | [] => []
  | A_put b _ :: l' => b :: put_calls l'
  | _ :: l' => put_calls l'
  end.

(** How often the LED was switched on. *)
Fixpoint led_on_count (l : list action) : nat :=
  match l with
  | [] => 0%nat
  | A_led_on :: l' => S (led_on_count l')
  | _ :: l' => led_on_count l'
  end.

(** The half-periods as the specification lists them. *)
Definition spec_half_period_ms (r : blink_rate_t) : Z :=
  match r with
  | BLINK_OFF => 0
  | BLINK_SLOW => 300
  | BLINK_MEDIUM => 150
  | BLINK_FAST => 80
  | BLINK_FRANTIC => 20
  end.

(** One on-pulse then one off-pulse of [h] milliseconds each. *)
Definition pulse_pair (h : Z) : list action :=
  [A_led_on; A_sleep h; A_led_off; A_sleep h].

(** What the specification says rendering a rate does. *)
Definition spec_render (r : blink_rate_t) : list action :=
  match r with
  | BLINK_OFF => [A_led_off]
  | _ => pulse_pair (spec_half_period_ms r)
  end.

(** The idle time the specification gives after an item. *)
Definition spec_gap (c : config) (b : blink_item) : Z :=
  if sleep_ms b =? 0 then INTERVAL_MS c else sleep_ms b.

(** A [uint16_t] value. *)
Definition is_u16 (z : Z) : Prop := 0 <= z < 65536.

(** The rate the specification gives a connectivity event. *)
Definition spec_connectivity_rate (c : config) (e : env) : blink_rate_t :=
  if central_role c then
    if zmk_ble_active_profile_is_connected e then BLINK_OFF
    else if zmk_ble_active_profile_is_open e then BLINK_FAST
    else BLINK_SLOW
  else
    if zmk_split_bt_peripheral_is_connected e then BLINK_SLOW
    else BLINK_FAST.

(** The world after one [k_msgq_put] of [b]. *)
Definition put_world (b : blink_item) (w : world) : world :=
  {| led_msgq := snd (try_enqueue (led_msgq w) b);
     initialized := initialized w; led := led w; soc_calls := soc_calls w;
     log := log w ++ [A_put b (fst (try_enqueue (led_msgq w) b))] |}.

(** What one item contributes to the log of the renderer. *)
Definition item_actions (c : config) (b : blink_item) : list action :=
  A_get b :: spec_render (rate b) ++ [A_sleep (spec_gap c b)].

(** What producers and the consumer can do to the queue. *)
Inductive queue_op : Type :=
| Q_put (b : blink_item)
| Q_get.

Definition apply_queue_op (q : list blink_item) (o : queue_op)
  : list blink_item :=
  match o with
  | Q_put b => snd (try_enqueue q b)
  | Q_get => match dequeue_blocking q with
             | Some (_, q') => q'
             | None => q
             end
  end.

(** The world after putting the items of a list one after the other. *)
Definition put_all (items : list blink_item) (w : world) : world :=
  fold_left (fun w0 b => put_world b w0) items w.

(** The requests the specification gives a layer activation whose
    highest active layer is [n]: [n - 1] frantic blinks that carry the
    layer gap, then one medium blink that carries none. *)
Definition spec_layer_requests (c : config) (n : nat) : list blink_item :=
  match n with
  | O => []
  | S m =>
      repeat {| rate := BLINK_FRANTIC; duration_ms := LAYER_BLINK_MS c;
                first_item := false; sleep_ms := LAYER_BLINK_MS c |} m
      ++ [{| rate := BLINK_MEDIUM; duration_ms := LAYER_BLINK_MS c;
             first_item := false; sleep_ms := 0 |}]
  end.

(** The items the loop of [led_layer_listener_cb] still has to put when
    [k] rounds remain. *)
Definition layer_rounds (c : config) (k : nat) : list blink_item :=
  match k with
  | O => []
  | S m => repeat (layer_blink c) m ++ [layer_final_blink c]
  end.

(** The battery levels the retry loop tests: the one it starts with,
    then the answers of the gauge from call number [cs] on. *)
Definition level_seen (e : env) (cs : nat) (level : Z) (j : nat) : Z :=
  match j with
  | O => level
  | S j' => zmk_battery_state_of_charge e (cs + j')
  end.

(** [k] retries: each sleeps 100 ms and then asks the gauge again. *)
Fixpoint retry_actions (e : env) (cs k : nat) : list action :=
  match k with
  | O => []
  | S k' =>
      A_sleep 100 :: A_soc (zmk_battery_state_of_charge e cs)
      :: retry_actions e (S cs) k'
  end.

(** The item the boot thread builds for battery level [level]. *)
Definition boot_battery_item (c : config) (level : Z) : blink_item :=
  init_battery_rate c level
    (with_first_item true
       (with_duration_ms (u16 (BATTERY_BLINK_MS c)) blink_item_zero)).

(** The world after the battery block of the boot thread, when the
    gauge was asked [k] more times after the first call. *)
Definition boot_battery_world (c : config) (e : env) (k : nat) (w : world)
  : world :=
  let level := zmk_battery_state_of_charge e (soc_calls w + k) in
  let item := boot_battery_item c level in
  {| led_msgq := snd (try_enqueue (led_msgq w) item);
     initialized := initialized w; led := led w;
     soc_calls := S (soc_calls w + k);
     log := log w
            ++ A_soc (zmk_battery_state_of_charge e (soc_calls w))
            :: retry_actions e (S (soc_calls w)) k
            ++ [A_put item (fst (try_enqueue (led_msgq w) item));
                A_sleep (BATTERY_BLINK_MS c + INTERVAL_MS c)] |}.

(** The gauge answers 0 to the calls [cs .. cs + k - 1], and the loop
    stops at call [cs + k]: a nonzero answer, or the tenth retry. *)
Definition stops_after (e : env) (cs k : nat) : Prop :=
  (k <= 10)%nat /\
  (forall j, (j < k)%nat -> zmk_battery_state_of_charge e (cs + j) = 0) /\
  (zmk_battery_state_of_charge e (cs + k) <> 0 \/ k = 10%nat).

(** The item [output_blink] builds. *)
Definition connectivity_item (c : config) (e : env) : blink_item :=
  {| rate := spec_connectivity_rate c e;
     duration_ms := u16 (OUTPUT_BLINK_MS c);
     first_item := false; sleep_ms := 0 |}.

(** The world after the whole boot thread. *)
Definition boot_thread_world (c : config) (e : env) (k : nat) (w : world)
  : world :=
  let w1 := if ZMK_BATTERY_REPORTING c then boot_battery_world c e k w else w in
  let w2 := if ZMK_BLE c then put_world (connectivity_item c e) w1 else w1 in
  {| led_msgq := led_msgq w2; initialized := true; led := led w2;
     soc_calls := soc_calls w2; log := log w2 |}.

(** An item that names only a rate and a duration. *)
Definition plain_item (b : blink_item) : Prop :=
  sleep_ms b = 0 /\ first_item b = false.

(** ** Further readings of the log and of the queue *)

(** The milliseconds slept, summed over the [k_sleep] calls of a log. *)
Fixpoint sleep_total (l : list action) : Z :=
  match l with
  | [] => 0
  | A_sleep ms :: l' => ms + sleep_total l'
  | _ :: l' => sleep_total l'
  end.

(** The calls to the LED driver, in call order. *)
Fixpoint led_calls (l : list action) : list action :=
  match l with
  | [] => []
  | A_led_on :: l' => A_led_on :: led_calls l'
  | A_led_off :: l' => A_led_off :: led_calls l'
  | _ :: l' => led_calls l'
  end.

(** The items [k_msgq_get] handed out, in call order. *)
Fixpoint get_calls (l : list action) : list blink_item :=
  match l with
  | [] => []
  | A_get b :: l' => b :: get_calls l'
  | _ :: l' => get_calls l'
  end.

(** The sleep that ends a round of [led_process_thread], as its [if]
    computes it. *)
Definition render_gap (c : config) (b : blink_item) : Z :=
  if 0 <? sleep_ms b then sleep_ms b else INTERVAL_MS c.

(** Everything one round of [led_process_thread] logs for item [b]. *)
Definition round_actions (c : config) (b : blink_item) : list action :=
  A_get b :: spec_render (rate b) ++ [A_sleep (render_gap c b)].

(** Whether rendering the item switches the LED on. *)
Definition lights_led (b : blink_item) : bool :=
  match rate b with
  | BLINK_OFF => false
  | _ => true
  end.

(** The time one round sleeps for item [b]. *)
Definition round_time (c : config) (b : blink_item) : Z :=
  2 * spec_half_period_ms (rate b) + render_gap c b.

(** The world after [n] rounds of the renderer, when the queue holds at
    least [n] items. *)
Definition drained_world (c : config) (n : nat) (w : world) : world :=
  {| led_msgq := skipn n (led_msgq w); initialized := initialized w;
     led := match n with O => led w | S _ => false end;
     soc_calls := soc_calls w;
     log := log w ++ flat_map (round_actions c) (firstn n (led_msgq w)) |}.

(** The item of the critical-battery warning. *)
Definition battery_warning_item (c : config) : blink_item :=
  with_rate BLINK_FAST
    (with_duration_ms (u16 (BATTERY_BLINK_MS c)) blink_item_zero).

(** What a producer may do to the world: it leaves the LED and its
    driver alone, takes nothing off the queue, does not clear
    [initialized], and changes the queue only by adding items behind
    the pending ones, within the capacity. *)
Definition only_appends (w w' : world) : Prop :=
  led w' = led w /\
  led_calls (log w') = led_calls (log w) /\
  get_calls (log w') = get_calls (log w) /\
  (initialized w = true -> initialized w' = true) /\
  (exists added, led_msgq w' = led_msgq w ++ added) /\
  ((length (led_msgq w) <= 16)%nat -> (length (led_msgq w') <= 16)%nat).

(** * Theorems *)

(** ** Basic facts about the commands *)

Lemma put_calls_app (l1 l2 : list action) :
  put_calls (l1 ++ l2) = put_calls l1 ++ put_calls l2.
Proof.
  induction l1 as [|a l1 IH]; simpl; [reflexivity|].
  destruct a; simpl; rewrite IH; reflexivity.
Qed.

Lemma led_on_count_app (l1 l2 : list action) :
  led_on_count (l1 ++ l2) = (led_on_count l1 + led_on_count l2)%nat.
Proof.
  induction l1 as [|a l1 IH]; simpl; [reflexivity|].
  destruct a; simpl; rewrite IH; reflexivity.
Qed.

Lemma u16_is_u16 (z : Z) : is_u16 (u16 z).
Proof. unfold is_u16, u16. apply Z.mod_pos_bound. lia. Qed.

Lemma u16_small (z : Z) : is_u16 z -> u16 z = z.
Proof. unfold is_u16, u16. intros H. apply Z.mod_small. exact H. Qed.

Lemma bind_some {A B : Type} (m : M A) (f : A -> M B) (w : world)
    (a : A) (w' : world) :
  m w = Some (a, w') -> bind m f w = f a w'.
Proof. intros H. unfold bind. rewrite H. reflexivity. Qed.

(** Running [led_do_blink] always returns; it leaves the queue and the
    flag alone, ends with the LED off and adds the rate's actions to the
    log. *)
Lemma led_do_blink_run (r : blink_rate_t) (w : world) :
  led_do_blink r w =
  Some (tt, {| led_msgq := led_msgq w; initialized := initialized w;
               led := false; soc_calls := soc_calls w;
               log := log w ++ spec_render r |}).
Proof.
  destruct r; unfold led_do_blink, bind, led_on, led_off, k_sleep, emit;
    simpl; repeat rewrite <- app_assoc; reflexivity.
Qed.

Lemma try_enqueue_room (q : list blink_item) (b : blink_item) :
  (length q < led_msgq_capacity)%nat -> try_enqueue q b = (true, q ++ [b]).
Proof.
  intros H. unfold try_enqueue.
  destruct (Nat.ltb_spec (length q) led_msgq_capacity); [reflexivity | lia].
Qed.

Lemma try_enqueue_full (q : list blink_item) (b : blink_item) :
  (led_msgq_capacity <= length q)%nat -> try_enqueue q b = (false, q).
Proof.
  intros H. unfold try_enqueue.
  destruct (Nat.ltb_spec (length q) led_msgq_capacity); [lia | reflexivity].
Qed.

Lemma k_msgq_put_run (b : blink_item) (w : world) :
  k_msgq_put b w =
  Some (fst (try_enqueue (led_msgq w) b),
        {| led_msgq := snd (try_enqueue (led_msgq w) b);
           initialized := initialized w; led := led w;
           soc_calls := soc_calls w;
           log := log w ++ [A_put b (fst (try_enqueue (led_msgq w) b))] |}).
Proof.
  unfold k_msgq_put. destruct (try_enqueue (led_msgq w) b) as [ok q].
  reflexivity.
Qed.

(** ** C1: one on/off pulse pair per rendered item *)

(** C1.  For every rate other than [BLINK_OFF], [led_do_blink] returns
    after exactly one on-pulse followed by one off-pulse, each as long
    as the rate's half-period (300, 150, 80, 20 ms); the renderer hands
    it only the item's rate, so an item's [duration_ms] changes nothing
    of what is rendered; [BLINK_OFF] switches the LED off and makes no
    other call. *)
Theorem led_do_blink_one_pulse_pair (r : blink_rate_t) (w : world) :
  r <> BLINK_OFF ->
  (exists w',
      led_do_blink r w = Some (tt, w') /\
      log w' = log w ++ [A_led_on; A_sleep (spec_half_period_ms r);
                         A_led_off; A_sleep (spec_half_period_ms r)] /\
      led_on_count (log w') = S (led_on_count (log w)) /\
      led w' = false) /\
  (spec_half_period_ms BLINK_SLOW = 300 /\
   spec_half_period_ms BLINK_MEDIUM = 150 /\
   spec_half_period_ms BLINK_FAST = 80 /\
   spec_half_period_ms BLINK_FRANTIC = 20) /\
  (forall (c : config) (b : blink_item) (d : Z) (q : list blink_item) (w0 : world),
      rate b = r -> led_msgq w0 = with_duration_ms d b :: q ->
      exists w1, led_process_iteration c w0 = Some (tt, w1) /\
                 log w1 = log w0 ++ A_get (with_duration_ms d b)
                                 :: pulse_pair (spec_half_period_ms r)
                                 ++ [A_sleep (if 0 <? sleep_ms b
                                              then sleep_ms b
                                              else INTERVAL_MS c)]) /\
  (forall w0, exists w1,
      led_do_blink BLINK_OFF w0 = Some (tt, w1) /\
      log w1 = log w0 ++ [A_led_off] /\ led w1 = false).
Proof.
  intros Hr. repeat split.
  - rewrite led_do_blink_run. eexists. split; [reflexivity|]. simpl.
    destruct r; try congruence; simpl; repeat split;
      rewrite led_on_count_app; simpl; lia.
  - intros c b d q w0 Hb Hq.
    unfold led_process_iteration, bind, k_msgq_get. rewrite Hq. simpl.
    rewrite led_do_blink_run. simpl. rewrite Hb.
    destruct (0 <? sleep_ms b); eexists; (split; [reflexivity|]); simpl;
      destruct r; try congruence; simpl; repeat rewrite <- app_assoc;
      reflexivity.
  - intros w0. rewrite led_do_blink_run. eexists. repeat split.
Qed.

Lemma led_do_blink_one_pulse_pair_witness :
  BLINK_FAST <> BLINK_OFF /\
  exists w', led_do_blink BLINK_FAST boot_world = Some (tt, w') /\
             log w' = [A_led_on; A_sleep 80; A_led_off; A_sleep 80].
Proof.
  split; [discriminate|].
  destruct (led_do_blink_one_pulse_pair BLINK_FAST boot_world) as [[w' [H1 [H2 _]]] _];
    [discriminate|].
  exists w'. split; [exact H1 | exact H2].
Defined.

(** ** C9: the idle time after an item *)

Lemma spec_gap_code (c : config) (b : blink_item) :
  0 <= sleep_ms b ->
  (if 0 <? sleep_ms b then sleep_ms b else INTERVAL_MS c) = spec_gap c b.
Proof.
  intros H. unfold spec_gap.
  destruct (Z.ltb_spec 0 (sleep_ms b)); destruct (Z.eqb_spec (sleep_ms b) 0);
    try reflexivity; lia.
Qed.

(** One round of the renderer on a queue headed by [b]. *)
Lemma led_process_iteration_run (c : config) (b : blink_item)
    (q : list blink_item) (w : world) :
  led_msgq w = b :: q ->
  led_process_iteration c w =
  Some (tt, {| led_msgq := q; initialized := initialized w; led := false;
               soc_calls := soc_calls w;
               log := log w ++ A_get b :: spec_render (rate b) ++
                        [A_sleep (if 0 <? sleep_ms b then sleep_ms b
                                  else INTERVAL_MS c)] |}).
Proof.
  intros Hq. unfold led_process_iteration, bind, k_msgq_get.
  rewrite Hq. simpl. rewrite led_do_blink_run. simpl.
  destruct (0 <? sleep_ms b); unfold k_sleep, emit; simpl;
    repeat rewrite <- app_assoc; reflexivity.
Qed.

(** C9.  After rendering a dequeued item the renderer sleeps for the
    item's [sleep_ms] when that field is not zero and for
    [CONFIG_RGBLED_WIDGET_INTERVAL_MS] when it is zero, and only then
    takes the next item off the queue. *)
Theorem renderer_gap_after_item (c : config) (b : blink_item)
    (q : list blink_item) (w : world) :
  led_msgq w = b :: q ->
  is_u16 (sleep_ms b) ->
  exists w',
    led_process_iteration c w = Some (tt, w') /\
    log w' = log w ++ A_get b :: spec_render (rate b)
                   ++ [A_sleep (spec_gap c b)] /\
    (sleep_ms b <> 0 -> spec_gap c b = sleep_ms b) /\
    (sleep_ms b = 0 -> spec_gap c b = INTERVAL_MS c) /\
    led_msgq w' = q /\
    (forall n, led_process_thread (S n) c w = led_process_thread n c w').
Proof.
  intros Hq [Hs _]. eexists. split; [apply led_process_iteration_run, Hq|].
  simpl. rewrite (spec_gap_code c b Hs). repeat split.
  - unfold spec_gap. destruct (Z.eqb_spec (sleep_ms b) 0); congruence.
  - unfold spec_gap. intros ->. reflexivity.
  - intros n. simpl. unfold bind at 1.
    rewrite (led_process_iteration_run c b q w Hq).
    rewrite (spec_gap_code c b Hs). reflexivity.
Qed.

(** The renderer drains a queue in order, one item at a time: all of an
    item's actions come before the next [A_get]. *)
Lemma led_process_thread_drains (c : config) (items : list blink_item) :
  Forall (fun b => is_u16 (sleep_ms b)) items ->
  forall w, led_msgq w = items ->
  exists w', led_process_thread (length items) c w = Some (tt, w') /\
             led_msgq w' = [] /\
             initialized w' = initialized w /\
             log w' = log w ++ flat_map (item_actions c) items.
Proof.
  induction 1 as [|b items Hb _ IH]; intros w Hq.
  - exists w. simpl. rewrite app_nil_r. repeat split. exact Hq.
  - simpl. unfold bind at 1.
    rewrite (led_process_iteration_run c b items w Hq).
    destruct Hb as [Hb _]. rewrite (spec_gap_code c b Hb).
    match goal with |- context [led_process_thread _ _ ?w1] =>
      destruct (IH w1 eq_refl) as [w' [Hrun [Hq' [Hi Hl]]]] end.
    exists w'. split; [exact Hrun|]. split; [exact Hq'|].
    split; [exact Hi|]. rewrite Hl. simpl. unfold item_actions.
    rewrite <- app_assoc. reflexivity.
Qed.

Lemma renderer_gap_after_item_witness :
  exists w',
    led_process_iteration
      (mk_config 1000 2000 100 500 80 20 5 true false false true true)
      {| led_msgq := [mk_blink_item BLINK_FRANTIC 100 false 100;
                      mk_blink_item BLINK_MEDIUM 100 false 0];
         initialized := true; led := false; soc_calls := 0%nat; log := [] |}
    = Some (tt, w') /\
    log w' = [A_get (mk_blink_item BLINK_FRANTIC 100 false 100);
              A_led_on; A_sleep 20; A_led_off; A_sleep 20; A_sleep 100].
Proof.
  destruct (renderer_gap_after_item
              (mk_config 1000 2000 100 500 80 20 5 true false false true true)
              (mk_blink_item BLINK_FRANTIC 100 false 100)
              [mk_blink_item BLINK_MEDIUM 100 false 0]
              {| led_msgq := [mk_blink_item BLINK_FRANTIC 100 false 100;
                              mk_blink_item BLINK_MEDIUM 100 false 0];
                 initialized := true; led := false; soc_calls := 0%nat;
                 log := [] |})
    as [w' [H1 [H2 _]]].
  - reflexivity.
  - unfold is_u16; simpl; lia.
  - exists w'. split; [exact H1 | exact H2].
Defined.

(** ** C8: the bounded queue *)

Lemma try_enqueue_bounded (q : list blink_item) (b : blink_item) :
  (length q <= led_msgq_capacity)%nat ->
  (length (snd (try_enqueue q b)) <= led_msgq_capacity)%nat.
Proof.
  intros H. unfold try_enqueue.
  destruct (Nat.ltb_spec (length q) led_msgq_capacity); simpl.
  - rewrite length_app. simpl. lia.
  - exact H.
Qed.

Lemma queue_ops_bounded (ops : list queue_op) (q : list blink_item) :
  (length q <= led_msgq_capacity)%nat ->
  (length (fold_left apply_queue_op ops q) <= led_msgq_capacity)%nat.
Proof.
  revert q. induction ops as [|o ops IH]; intros q H; simpl; [exact H|].
  apply IH. destruct o as [b|]; simpl.
  - apply try_enqueue_bounded, H.
  - destruct q as [|x q']; simpl in *; lia.
Qed.

(** C8.  Starting empty, the queue never holds more than 16 items; a
    put on a queue holding 16 items returns at once with "not
    accepted", the item is dropped, and the queue keeps its items in
    their order. *)
Theorem try_enqueue_full_queue (q : list blink_item) (b : blink_item)
    (w : world) :
  length q = 16%nat ->
  led_msgq w = q ->
  try_enqueue q b = (false, q) /\
  (exists w', k_msgq_put b w = Some (false, w') /\
              led_msgq w' = q /\
              log w' = log w ++ [A_put b false]) /\
  (forall ops : list queue_op,
      (length (fold_left apply_queue_op ops []) <= 16)%nat).
Proof.
  intros Hlen Hq.
  assert (Hfull : try_enqueue q b = (false, q)).
  { apply try_enqueue_full. unfold led_msgq_capacity. lia. }
  split; [exact Hfull|]. split.
  - rewrite k_msgq_put_run, Hq, Hfull. simpl. eexists. repeat split.
  - intros ops. apply (queue_ops_bounded ops []). simpl.
    unfold led_msgq_capacity. lia.
Qed.

Lemma try_enqueue_full_queue_witness :
  try_enqueue (repeat blink_item_zero 16) (with_rate BLINK_FAST blink_item_zero)
  = (false, repeat blink_item_zero 16).
Proof.
  apply (try_enqueue_full_queue (repeat blink_item_zero 16)
           (with_rate BLINK_FAST blink_item_zero)
           {| led_msgq := repeat blink_item_zero 16; initialized := true;
              led := false; soc_calls := 0%nat; log := [] |});
    reflexivity.
Defined.

(** Rewrites with every hypothesis that fixes a boolean answer. *)
Ltac rewrite_flags :=
  repeat match goal with
         | H : _ = true |- _ => rewrite H
         | H : _ = false |- _ => rewrite H
         end.

(** ** C4: nothing is queued before the boot sequence has finished *)

(** C4.  While [initialized] is false each of the three listeners
    returns 0 and leaves the world as it found it, whatever the event
    and whatever ZMK answers: no call to [k_msgq_put] is made. *)
Theorem listeners_gated_by_initialized (c : config) (e : env) (w : world)
    (bev : zmk_battery_state_changed) (lev : zmk_layer_state_changed) :
  initialized w = false ->
  led_output_listener_cb c e w = Some (0, w) /\
  led_battery_listener_cb c bev w = Some (0, w) /\
  led_layer_listener_cb c e lev w = Some (0, w).
Proof.
  intros Hi.
  unfold led_output_listener_cb, led_battery_listener_cb,
    led_layer_listener_cb, bind, get_initialized, ret.
  rewrite Hi. simpl. repeat split.
Qed.

Lemma listeners_gated_by_initialized_witness :
  led_battery_listener_cb
    (mk_config 1000 2000 100 500 80 20 5 true false false true true)
    (mk_battery_ev 3) boot_world = Some (0, boot_world).
Proof.
  apply (listeners_gated_by_initialized
           (mk_config 1000 2000 100 500 80 20 5 true false false true true)
           (mk_env 0 false true false 3 (fun _ => 3))
           boot_world (mk_battery_ev 3) (mk_layer_ev 3 true 0)).
  reflexivity.
Defined.

(** ** C5: the connectivity listener *)

Lemma output_blink_run (c : config) (e : env) (w : world) :
  output_blink c e w = Some (tt, put_world (connectivity_item c e) w).
Proof.
  unfold output_blink, bind, ret. rewrite k_msgq_put_run.
  unfold connectivity_item, spec_connectivity_rate, put_world.
  destruct (central_role c), (zmk_ble_active_profile_is_connected e),
    (zmk_ble_active_profile_is_open e),
    (zmk_split_bt_peripheral_is_connected e); reflexivity.
Qed.

(** C5.  Once [initialized] is set, every connectivity event makes the
    listener call [k_msgq_put] exactly once.  The item's rate is, in the
    central role, [BLINK_OFF] when the active profile is connected,
    [BLINK_FAST] when it is open and [BLINK_SLOW] otherwise; in the
    peripheral role, [BLINK_SLOW] when linked to the central and
    [BLINK_FAST] when not.  Its duration is the configured one, and it
    joins the end of the queue when the queue has room. *)
Theorem connectivity_listener_one_request (c : config) (e : env) (w : world) :
  initialized w = true ->
  exists (item : blink_item) (w' : world),
    led_output_listener_cb c e w = Some (0, w') /\
    put_calls (log w') = put_calls (log w) ++ [item] /\
    duration_ms item = u16 (OUTPUT_BLINK_MS c) /\
    (central_role c = true ->
       (zmk_ble_active_profile_is_connected e = true -> rate item = BLINK_OFF) /\
       (zmk_ble_active_profile_is_connected e = false ->
        zmk_ble_active_profile_is_open e = true -> rate item = BLINK_FAST) /\
       (zmk_ble_active_profile_is_connected e = false ->
        zmk_ble_active_profile_is_open e = false -> rate item = BLINK_SLOW)) /\
    (central_role c = false ->
       (zmk_split_bt_peripheral_is_connected e = true -> rate item = BLINK_SLOW) /\
       (zmk_split_bt_peripheral_is_connected e = false -> rate item = BLINK_FAST)) /\
    ((length (led_msgq w) < 16)%nat -> led_msgq w' = led_msgq w ++ [item]).
Proof.
  intros Hi.
  eexists. eexists. split.
  - unfold led_output_listener_cb, bind, get_initialized. rewrite Hi.
    rewrite output_blink_run. reflexivity.
  - simpl. split; [rewrite put_calls_app; reflexivity|].
    split; [reflexivity|]. unfold connectivity_item, spec_connectivity_rate.
    cbn [rate]. split; [|split].
    + intros Hc. rewrite Hc. repeat split; intros; rewrite_flags; reflexivity.
    + intros Hc. rewrite Hc. repeat split; intros; rewrite_flags; reflexivity.
    + intros Hlen. rewrite try_enqueue_room; [reflexivity|exact Hlen].
Qed.

Lemma connectivity_listener_one_request_witness :
  exists (item : blink_item) (w' : world),
    led_output_listener_cb
      (mk_config 1000 2000 100 500 80 20 5 true false false true true)
      (mk_env 0 false true false 0 (fun _ => 90))
      {| led_msgq := []; initialized := true; led := false;
         soc_calls := 0%nat; log := [] |} = Some (0, w') /\
    put_calls (log w') = [item] /\ rate item = BLINK_FAST.
Proof.
  destruct (connectivity_listener_one_request
              (mk_config 1000 2000 100 500 80 20 5 true false false true true)
              (mk_env 0 false true false 0 (fun _ => 90))
              {| led_msgq := []; initialized := true; led := false;
                 soc_calls := 0%nat; log := [] |} eq_refl)
    as [item [w' [H1 [H2 [_ [H3 _]]]]]].
  exists item, w'. split; [exact H1|]. split; [exact H2|].
  apply (proj1 (proj2 (H3 eq_refl))); reflexivity.
Defined.

(** ** C6: the battery listener *)

(** C6.  Once [initialized] is set, a battery event with level [L]
    makes the listener call [k_msgq_put] exactly once, with a
    [BLINK_FAST] item, when [0 < L <= critical]; when [L = 0] or
    [L > critical] the listener changes nothing. *)
Theorem battery_listener_critical_only (c : config)
    (eh : zmk_battery_state_changed) (w : world) :
  initialized w = true ->
  (state_of_charge eh = 0 \/ BATTERY_LEVEL_CRITICAL c < state_of_charge eh ->
   led_battery_listener_cb c eh w = Some (0, w)) /\
  (0 < state_of_charge eh <= BATTERY_LEVEL_CRITICAL c ->
   exists (item : blink_item) (w' : world),
     led_battery_listener_cb c eh w = Some (0, w') /\
     put_calls (log w') = put_calls (log w) ++ [item] /\
     rate item = BLINK_FAST /\
     duration_ms item = u16 (BATTERY_BLINK_MS c) /\
     ((length (led_msgq w) < 16)%nat -> led_msgq w' = led_msgq w ++ [item])).
Proof.
  intros Hi. split.
  - intros HL. unfold led_battery_listener_cb, bind, get_initialized, ret.
    rewrite Hi. simpl.
    destruct (Z.ltb_spec 0 (state_of_charge eh));
      destruct (Z.leb_spec (state_of_charge eh) (BATTERY_LEVEL_CRITICAL c));
      simpl; try reflexivity; lia.
  - intros [H0 Hc]. eexists. eexists. split.
    + unfold led_battery_listener_cb, bind, get_initialized, ret.
      rewrite Hi. simpl.
      destruct (Z.ltb_spec 0 (state_of_charge eh)); [|lia].
      destruct (Z.leb_spec (state_of_charge eh) (BATTERY_LEVEL_CRITICAL c));
        [|lia].
      simpl. rewrite k_msgq_put_run. reflexivity.
    + simpl. split; [rewrite put_calls_app; reflexivity|].
      repeat split.
      intros Hlen. rewrite try_enqueue_room; [reflexivity|exact Hlen].
Qed.

Lemma battery_listener_critical_only_witness :
  exists (item : blink_item) (w' : world),
    led_battery_listener_cb
      (mk_config 1000 2000 100 500 80 20 5 true false false true true)
      (mk_battery_ev 4)
      {| led_msgq := []; initialized := true; led := false;
         soc_calls := 0%nat; log := [] |} = Some (0, w') /\
    put_calls (log w') = [item] /\ rate item = BLINK_FAST.
Proof.
  destruct (proj2 (battery_listener_critical_only
              (mk_config 1000 2000 100 500 80 20 5 true false false true true)
              (mk_battery_ev 4)
              {| led_msgq := []; initialized := true; led := false;
                 soc_calls := 0%nat; log := [] |} eq_refl))
    as [item [w' [H1 [H2 [H3 _]]]]].
  - simpl. lia.
  - exists item, w'. split; [exact H1|]. split; [exact H2 | exact H3].
Defined.

(** ** C7: the layer listener *)

Lemma put_all_app (l1 l2 : list blink_item) (w : world) :
  put_all (l1 ++ l2) w = put_all l2 (put_all l1 w).
Proof. unfold put_all. apply fold_left_app. Qed.

Lemma put_all_frame (items : list blink_item) (w : world) :
  initialized (put_all items w) = initialized w /\
  led (put_all items w) = led w /\
  soc_calls (put_all items w) = soc_calls w /\
  put_calls (log (put_all items w)) = put_calls (log w) ++ items /\
  led_on_count (log (put_all items w)) = led_on_count (log w).
Proof.
  revert w. induction items as [|b items IH]; intros w.
  - simpl. rewrite app_nil_r. repeat split.
  - change (put_all (b :: items) w) with (put_all items (put_world b w)).
    destruct (IH (put_world b w)) as [H1 [H2 [H3 [H4 H5]]]].
    rewrite H1, H2, H3, H4, H5. simpl.
    rewrite put_calls_app, led_on_count_app. simpl.
    rewrite <- app_assoc. repeat split. lia.
Qed.

Lemma put_all_room (items : list blink_item) (w : world) :
  (length (led_msgq w) + length items <= 16)%nat ->
  led_msgq (put_all items w) = led_msgq w ++ items.
Proof.
  revert w. induction items as [|b items IH]; intros w Hlen.
  - simpl. rewrite app_nil_r. reflexivity.
  - change (put_all (b :: items) w) with (put_all items (put_world b w)).
    simpl in Hlen.
    assert (Hq : led_msgq (put_world b w) = led_msgq w ++ [b]).
    { simpl. rewrite try_enqueue_room; [reflexivity|].
      unfold led_msgq_capacity. lia. }
    rewrite IH; rewrite Hq.
    + rewrite <- app_assoc. reflexivity.
    + rewrite length_app. simpl. lia.
Qed.

Lemma layer_loop_run (c : config) (index : Z) (k : nat) :
  forall (fuel : nat) (i : Z) (w : world),
    (k <= fuel)%nat -> i + Z.of_nat k = index ->
    for_loop fuel i index
      (fun i =>
         if i <? index - 1
         then k_msgq_put (layer_blink c) ;; ret tt
         else k_msgq_put (layer_final_blink c) ;; ret tt) w
    = Some (tt, put_all (layer_rounds c k) w).
Proof.
  induction k as [|k IH]; intros fuel i w Hfuel Hi.
  - destruct fuel; simpl;
      (destruct (Z.ltb_spec i index); [lia | reflexivity]).
  - destruct fuel as [|fuel]; [lia|]. simpl.
    destruct (Z.ltb_spec i index); [|lia].
    unfold bind at 1.
    destruct (Z.ltb_spec i (index - 1)).
    + unfold bind at 1. rewrite k_msgq_put_run. unfold ret at 1.
      rewrite (IH fuel (i + 1) _ ltac:(lia) ltac:(lia)).
      destruct k as [|k]; [lia|]. reflexivity.
    + unfold bind at 1. rewrite k_msgq_put_run. unfold ret at 1.
      rewrite (IH fuel (i + 1) _ ltac:(lia) ltac:(lia)).
      destruct k as [|k]; [reflexivity | lia].
Qed.

Lemma layer_rounds_spec (c : config) (n : nat) :
  is_u16 (LAYER_BLINK_MS c) ->
  layer_rounds c n = spec_layer_requests c n.
Proof.
  intros H. destruct n as [|m]; [reflexivity|].
  unfold layer_rounds, spec_layer_requests, layer_blink, layer_final_blink,
    with_sleep_ms, with_rate, with_duration_ms. simpl.
  rewrite (u16_small _ H). reflexivity.
Qed.

Lemma spec_layer_requests_length (c : config) (n : nat) :
  length (spec_layer_requests c n) = n.
Proof.
  destruct n as [|m]; [reflexivity|]. simpl.
  rewrite length_app, repeat_length. simpl. lia.
Qed.

(** C7.  Once [initialized] is set: a layer event with [state = false]
    changes nothing; an activation whose highest active layer is [n]
    makes the listener call [k_msgq_put] exactly [n] times, in order
    [n - 1] times with a [BLINK_FRANTIC] item whose [sleep_ms] is the
    layer blink time and then once with a [BLINK_MEDIUM] item whose
    [sleep_ms] is 0 (the default gap); for [n = 0] it makes no call.
    The items join the queue in that order when it has room for them. *)
Theorem layer_listener_counts_layers (c : config) (e : env)
    (eh : zmk_layer_state_changed) (n : nat) (w : world) :
  initialized w = true ->
  zmk_keymap_highest_layer_active e = Z.of_nat n ->
  is_u16 (LAYER_BLINK_MS c) ->
  (state eh = false -> led_layer_listener_cb c e eh w = Some (0, w)) /\
  (state eh = true ->
   exists w',
     led_layer_listener_cb c e eh w = Some (0, w') /\
     put_calls (log w') = put_calls (log w) ++ spec_layer_requests c n /\
     length (spec_layer_requests c n) = n /\
     spec_layer_requests c 0 = [] /\
     (forall m, spec_layer_requests c (S m) =
                repeat {| rate := BLINK_FRANTIC;
                          duration_ms := LAYER_BLINK_MS c;
                          first_item := false;
                          sleep_ms := LAYER_BLINK_MS c |} m
                ++ [{| rate := BLINK_MEDIUM;
                       duration_ms := LAYER_BLINK_MS c;
                       first_item := false; sleep_ms := 0 |}]) /\
     ((length (led_msgq w) + n <= 16)%nat ->
      led_msgq w' = led_msgq w ++ spec_layer_requests c n)).
Proof.
  intros Hi Hn Hu. split.
  - intros Hs. unfold led_layer_listener_cb, bind, get_initialized, ret.
    rewrite Hi, Hs. reflexivity.
  - intros Hs. exists (put_all (spec_layer_requests c n) w). split.
    + unfold led_layer_listener_cb.
      rewrite (bind_some _ _ w (initialized w) w eq_refl).
      rewrite Hi, Hs, Hn, Nat2Z.id. cbn [negb]. cbv beta iota zeta.
      rewrite (bind_some _ _ w tt (put_all (layer_rounds c n) w)
                 (layer_loop_run c (Z.of_nat n) n n 0 w (le_n n) eq_refl)).
      rewrite (layer_rounds_spec c n Hu). reflexivity.
    + destruct (put_all_frame (spec_layer_requests c n) w)
        as [_ [_ [_ [Hp _]]]].
      split; [exact Hp|].
      split; [apply spec_layer_requests_length|].
      split; [reflexivity|]. split; [reflexivity|].
      intros Hlen. apply put_all_room.
      rewrite spec_layer_requests_length. exact Hlen.
Qed.

Lemma layer_listener_counts_layers_witness :
  exists w',
    led_layer_listener_cb
      (mk_config 1000 2000 100 500 80 20 5 true false false true true)
      (mk_env 0 true false false 3 (fun _ => 90))
      (mk_layer_ev 3 true 0)
      {| led_msgq := []; initialized := true; led := false;
         soc_calls := 0%nat; log := [] |} = Some (0, w') /\
    put_calls (log w') =
      [mk_blink_item BLINK_FRANTIC 100 false 100;
       mk_blink_item BLINK_FRANTIC 100 false 100;
       mk_blink_item BLINK_MEDIUM 100 false 0].
Proof.
  destruct (proj2 (layer_listener_counts_layers
              (mk_config 1000 2000 100 500 80 20 5 true false false true true)
              (mk_env 0 true false false 3 (fun _ => 90))
              (mk_layer_ev 3 true 0) 3%nat
              {| led_msgq := []; initialized := true; led := false;
                 soc_calls := 0%nat; log := [] |}
              eq_refl eq_refl ltac:(unfold is_u16; simpl; lia)) eq_refl)
    as [w' [H1 [H2 _]]].
  exists w'. split; [exact H1 | exact H2].
Defined.

(** ** The boot thread: the retry loop *)

Lemma world_eta (w : world) :
  {| led_msgq := led_msgq w; initialized := initialized w; led := led w;
     soc_calls := soc_calls w; log := log w |} = w.
Proof. destruct w; reflexivity. Qed.

Lemma level_seen_next (e : env) (cs : nat) (k : nat) :
  level_seen e (S cs) (zmk_battery_state_of_charge e cs) k
  = zmk_battery_state_of_charge e (cs + k).
Proof.
  destruct k as [|k]; simpl.
  - rewrite Nat.add_0_r. reflexivity.
  - rewrite Nat.add_succ_r. reflexivity.
Qed.

(** The retry loop, when the [k]-th level it tests is the first that
    ends it: it returns that level after [k] rounds. *)
Lemma battery_retry_loop_run (e : env) (k : nat) :
  forall (fuel : nat) (level retry : Z) (w : world),
    (k <= fuel)%nat ->
    retry + Z.of_nat k <= 10 ->
    (forall j, (j < k)%nat -> level_seen e (soc_calls w) level j = 0) ->
    (level_seen e (soc_calls w) level k <> 0 \/ retry + Z.of_nat k = 10) ->
    battery_retry_loop fuel e level retry w =
    Some (level_seen e (soc_calls w) level k,
          {| led_msgq := led_msgq w; initialized := initialized w;
             led := led w; soc_calls := (soc_calls w + k)%nat;
             log := log w ++ retry_actions e (soc_calls w) k |}).
Proof.
  induction k as [|k IH]; intros fuel level retry w Hfuel Hr Hz Hstop.
  - simpl. rewrite Nat.add_0_r, app_nil_r, world_eta.
    simpl in Hstop.
    destruct fuel; simpl;
      destruct (Z.eqb_spec level 0); try reflexivity;
      (destruct (Z.ltb_spec retry 10); [lia | reflexivity]).
  - destruct fuel as [|fuel]; [lia|].
    assert (H0 : level = 0) by (apply (Hz 0%nat); lia).
    subst level. simpl battery_retry_loop.
    destruct (Z.ltb_spec retry 10); [|lia].
    unfold bind at 1. unfold k_sleep at 1. unfold bind at 1.
    unfold battery_state_of_charge at 1. cbv beta zeta.
    rewrite (IH fuel _ (retry + 1)); simpl soc_calls;
      try rewrite level_seen_next.
    + simpl. rewrite Nat.add_succ_r. repeat rewrite <- app_assoc.
      reflexivity.
    + lia.
    + lia.
    + intros j Hj. rewrite level_seen_next. apply (Hz (S j)). lia.
    + destruct Hstop as [Hstop|Hstop]; [left; exact Hstop | right; lia].
Qed.

(** Whatever the gauge answers, the loop stops after some [k <= 10]
    retries. *)
Lemma stops_after_exists (e : env) (cs : nat) : exists k, stops_after e cs k.
Proof.
  assert (H : forall n, exists k, (k <= n)%nat /\
             (forall j, (j < k)%nat -> zmk_battery_state_of_charge e (cs + j) = 0) /\
             (zmk_battery_state_of_charge e (cs + k) <> 0 \/ k = n)).
  { induction n as [|n [k [Hk [Hz Hs]]]].
    - exists 0%nat. repeat split; [lia | intros j Hj; lia | right; reflexivity].
    - destruct Hs as [Hs|Hs].
      + exists k. repeat split; [lia | exact Hz | left; exact Hs].
      + subst k.
        destruct (Z.eq_dec (zmk_battery_state_of_charge e (cs + n)) 0) as [E|E].
        * exists (S n). repeat split; [lia | | right; reflexivity].
          intros j Hj. destruct (Nat.eq_dec j n) as [->|Hne]; [exact E|].
          apply Hz. lia.
        * exists n. repeat split; [lia | exact Hz | left; exact E]. }
  destruct (H 10%nat) as [k Hk]. exists k. exact Hk.
Qed.

(** The battery block of the boot thread always returns: one first
    call to the gauge, [k] retries, one put, one sleep. *)
Lemma led_init_battery_run (c : config) (e : env) (k : nat) (w : world) :
  stops_after e (soc_calls w) k ->
  led_init_battery c e w = Some (tt, boot_battery_world c e k w).
Proof.
  intros [Hk [Hz Hstop]]. unfold led_init_battery.
  unfold bind at 1. unfold battery_state_of_charge at 1. cbv beta zeta.
  unfold bind at 1.
  rewrite (battery_retry_loop_run e k 10 _ 0); simpl soc_calls.
  - rewrite level_seen_next. unfold bind at 1. rewrite k_msgq_put_run.
    unfold k_sleep, emit, boot_battery_world, boot_battery_item. simpl.
    repeat rewrite <- app_assoc. reflexivity.
  - exact Hk.
  - lia.
  - intros j Hj. rewrite level_seen_next. apply Hz, Hj.
  - rewrite level_seen_next.
    destruct Hstop as [Hstop|Hstop]; [left; exact Hstop | right; lia].
Qed.

Lemma led_init_thread_run (c : config) (e : env) (k : nat) (w : world) :
  stops_after e (soc_calls w) k ->
  led_init_thread c e w = Some (tt, boot_thread_world c e k w).
Proof.
  intros Hk. unfold led_init_thread, boot_thread_world.
  destruct (ZMK_BATTERY_REPORTING c).
  - rewrite (bind_some _ _ w tt _ (led_init_battery_run c e k w Hk)).
    destruct (ZMK_BLE c).
    + rewrite (bind_some _ _ _ tt _ (output_blink_run c e _)). reflexivity.
    + reflexivity.
  - unfold bind at 1, ret at 1. destruct (ZMK_BLE c).
    + rewrite (bind_some _ _ _ tt _ (output_blink_run c e _)). reflexivity.
    + reflexivity.
Qed.

Lemma boot_battery_item_fields (c : config) (level : Z) :
  first_item (boot_battery_item c level) = true /\
  sleep_ms (boot_battery_item c level) = 0 /\
  duration_ms (boot_battery_item c level) = u16 (BATTERY_BLINK_MS c).
Proof.
  unfold boot_battery_item, init_battery_rate.
  destruct (level =? 0), (BATTERY_LEVEL_HIGH c <=? level),
    (BATTERY_LEVEL_LOW c <=? level); repeat split.
Qed.

Lemma boot_battery_item_rate (c : config) (level : Z) :
  (level = 0 -> rate (boot_battery_item c level) = BLINK_OFF) /\
  (level <> 0 -> BATTERY_LEVEL_HIGH c <= level ->
   rate (boot_battery_item c level) = BLINK_SLOW) /\
  (level <> 0 -> level < BATTERY_LEVEL_HIGH c -> BATTERY_LEVEL_LOW c <= level ->
   rate (boot_battery_item c level) = BLINK_FAST) /\
  (level <> 0 -> level < BATTERY_LEVEL_HIGH c -> level < BATTERY_LEVEL_LOW c ->
   rate (boot_battery_item c level) = BLINK_OFF).
Proof.
  unfold boot_battery_item, init_battery_rate.
  destruct (Z.eqb_spec level 0), (Z.leb_spec (BATTERY_LEVEL_HIGH c) level),
    (Z.leb_spec (BATTERY_LEVEL_LOW c) level);
    repeat split; intros; simpl; try reflexivity; lia.
Qed.

(** ** C3: the battery request of the boot thread *)

(** C3.  With battery reporting enabled the boot thread returns, having
    asked the gauge once and then again, after a sleep of 100 ms each
    time, while the answer was 0 and fewer than 10 retries were made;
    it then calls [k_msgq_put] once with an item that has
    [first_item = true] and whose rate comes from the last answer:
    [BLINK_OFF] for 0, [BLINK_SLOW] from the high threshold up,
    [BLINK_FAST] from the low threshold up.  No other item it puts has
    [first_item = true].  So an answer of 50 at the tenth retry gives
    the rate of level 50, which is not [BLINK_OFF] when 50 reaches the
    low or the high threshold, and answers that are all 0 give
    [BLINK_OFF]. *)
Theorem boot_battery_request (c : config) (e : env) (k : nat) (w : world) :
  ZMK_BATTERY_REPORTING c = true ->
  stops_after e (soc_calls w) k ->
  exists (item : blink_item) (ok : bool) (others : list action) (w' : world),
    led_init_thread c e w = Some (tt, w') /\
    initialized w' = true /\
    (k <= 10)%nat /\
    log w' = log w
             ++ A_soc (zmk_battery_state_of_charge e (soc_calls w))
             :: retry_actions e (S (soc_calls w)) k
             ++ [A_put item ok; A_sleep (BATTERY_BLINK_MS c + INTERVAL_MS c)]
             ++ others /\
    first_item item = true /\
    Forall (fun b => first_item b = false) (put_calls others) /\
    (led_msgq w = [] -> led_msgq w' = item :: put_calls others) /\
    item = boot_battery_item c (zmk_battery_state_of_charge e (soc_calls w + k)) /\
    (zmk_battery_state_of_charge e (soc_calls w + k) = 0 ->
     rate item = BLINK_OFF) /\
    (zmk_battery_state_of_charge e (soc_calls w + k) <> 0 ->
     BATTERY_LEVEL_HIGH c <= zmk_battery_state_of_charge e (soc_calls w + k) ->
     rate item = BLINK_SLOW) /\
    (zmk_battery_state_of_charge e (soc_calls w + k) <> 0 ->
     zmk_battery_state_of_charge e (soc_calls w + k) < BATTERY_LEVEL_HIGH c ->
     BATTERY_LEVEL_LOW c <= zmk_battery_state_of_charge e (soc_calls w + k) ->
     rate item = BLINK_FAST) /\
    (k = 10%nat -> zmk_battery_state_of_charge e (soc_calls w + k) = 50 ->
     BATTERY_LEVEL_LOW c <= 50 \/ BATTERY_LEVEL_HIGH c <= 50 ->
     rate item <> BLINK_OFF).
Proof.
  intros Hb Hk.
  set (level := zmk_battery_state_of_charge e (soc_calls w + k)).
  exists (boot_battery_item c level),
    (fst (try_enqueue (led_msgq w) (boot_battery_item c level))).
  exists (if ZMK_BLE c
          then [A_put (connectivity_item c e)
                  (fst (try_enqueue
                          (snd (try_enqueue (led_msgq w)
                                  (boot_battery_item c level)))
                          (connectivity_item c e)))]
          else []).
  exists (boot_thread_world c e k w).
  destruct (boot_battery_item_rate c level) as [R0 [R1 [R2 _]]].
  destruct (boot_battery_item_fields c level) as [F1 _].
  split; [apply led_init_thread_run, Hk|].
  split; [reflexivity|].
  split; [apply Hk|].
  split.
  { unfold boot_thread_world. rewrite Hb. fold level.
    destruct (ZMK_BLE c); simpl; fold level;
      repeat (rewrite <- app_assoc; simpl); reflexivity. }
  split; [exact F1|].
  split.
  { destruct (ZMK_BLE c); simpl; repeat constructor. }
  split.
  { intros Hq. unfold boot_thread_world. rewrite Hb.
    destruct (ZMK_BLE c); simpl; fold level; rewrite Hq; reflexivity. }
  split; [reflexivity|].
  split; [exact R0|]. split; [exact R1|]. split; [exact R2|].
  intros _ H50 Hth. subst level. rewrite H50 in R1, R2 |- *.
  destruct (Z.le_gt_cases (BATTERY_LEVEL_HIGH c) 50) as [Hh|Hh].
  - rewrite R1; [discriminate | lia | exact Hh].
  - rewrite R2; [discriminate | lia | lia | lia].
Qed.

Lemma boot_battery_request_witness :
  exists (item : blink_item) (w' : world),
    led_init_thread
      (mk_config 1000 2000 100 500 80 20 5 true false false true true)
      (mk_env 0 true false false 0 (fun j => if (j <? 10)%nat then 0 else 50))
      boot_world = Some (tt, w') /\
    put_calls (log w') = [item; mk_blink_item BLINK_OFF 1000 false 0] /\
    item = mk_blink_item BLINK_FAST 2000 true 0.
Proof.
  destruct (boot_battery_request
              (mk_config 1000 2000 100 500 80 20 5 true false false true true)
              (mk_env 0 true false false 0
                 (fun j => if (j <? 10)%nat then 0 else 50))
              10%nat boot_world eq_refl)
    as [item [ok [others [w' [H1 [_ [_ [H2 [_ [_ [H3 [H4 _]]]]]]]]]]]].
  - split; [lia|]. split.
    + intros j Hj. simpl.
      destruct (Nat.ltb_spec j 10); [reflexivity | lia].
    + left. simpl. discriminate.
  - exists item, w'. split; [exact H1|].
    rewrite H4. split; [|reflexivity].
    vm_compute in H1. injection H1 as H1. subst w'. reflexivity.
Defined.

(** ** C2: a low but nonzero battery level at boot *)

(** C2.  When the level the boot thread ends up with is above 0 and
    below the low threshold (the thresholds being in order, low not
    above high), no branch assigns a rate: the item put on the queue
    keeps the rate it was zero-initialised with.  Rendering it switches
    the LED on not once, and an LED that was off at boot is still off
    afterwards: the light shows nothing. *)
Theorem boot_low_battery_unindicated (c : config) (e : env) (k : nat)
    (r : Z) (w : world) :
  stops_after e (soc_calls w) k ->
  zmk_battery_state_of_charge e (soc_calls w + k) = r ->
  0 < r < BATTERY_LEVEL_LOW c ->
  BATTERY_LEVEL_LOW c <= BATTERY_LEVEL_HIGH c ->
  led_msgq w = [] ->
  led w = false ->
  exists (item : blink_item) (w1 w2 : world),
    led_init_battery c e w = Some (tt, w1) /\
    put_calls (log w1) = put_calls (log w) ++ [item] /\
    item = init_battery_rate c r
             (with_first_item true
                (with_duration_ms (u16 (BATTERY_BLINK_MS c)) blink_item_zero)) /\
    rate item = rate blink_item_zero /\
    led_msgq w1 = [item] /\
    led_process_iteration c w1 = Some (tt, w2) /\
    log w2 = log w1 ++ [A_get item; A_led_off; A_sleep (INTERVAL_MS c)] /\
    led_on_count (log w2) = led_on_count (log w) /\
    led w2 = led w.
Proof.
  intros Hk Hr Hlow Hord Hq Hled.
  destruct (boot_battery_item_rate c r) as [_ [_ [_ R3]]].
  destruct (boot_battery_item_fields c r) as [_ [F2 _]].
  assert (Hrate : rate (boot_battery_item c r) = BLINK_OFF)
    by (apply R3; lia).
  exists (boot_battery_item c r), (boot_battery_world c e k w).
  eexists.
  split; [apply led_init_battery_run, Hk|].
  assert (Hq1 : led_msgq (boot_battery_world c e k w) = [boot_battery_item c r]).
  { unfold boot_battery_world. rewrite Hr, Hq. reflexivity. }
  split.
  { unfold boot_battery_world. rewrite Hr. simpl.
    rewrite put_calls_app. simpl.
    assert (Hret : forall cs n l, put_calls (retry_actions e cs n ++ l)
                                  = put_calls l).
    { intros cs n l. revert cs. induction n as [|n IH]; intros cs; simpl;
        [reflexivity | apply IH]. }
    rewrite Hret. reflexivity. }
  split; [reflexivity|].
  split; [exact Hrate|].
  split; [exact Hq1|].
  split; [apply (led_process_iteration_run c _ [] _ Hq1)|].
  simpl log. rewrite Hrate, F2. simpl.
  split; [reflexivity|]. split; [|symmetry; exact Hled].
  unfold boot_battery_world. rewrite Hr. simpl.
  repeat rewrite led_on_count_app. simpl.
  assert (Hret : forall cs n l, led_on_count (retry_actions e cs n ++ l)
                                = led_on_count l).
  { intros cs n l. revert cs. induction n as [|n IH]; intros cs; simpl;
      [reflexivity | apply IH]. }
  rewrite Hret. simpl. lia.
Qed.

Lemma boot_low_battery_unindicated_witness :
  exists (item : blink_item) (w1 w2 : world),
    led_init_battery
      (mk_config 1000 2000 100 500 80 20 5 true false false true true)
      (mk_env 0 true false false 0 (fun _ => 12))
      boot_world = Some (tt, w1) /\
    rate item = BLINK_OFF /\
    led_process_iteration
      (mk_config 1000 2000 100 500 80 20 5 true false false true true) w1
    = Some (tt, w2) /\
    led_on_count (log w2) = 0%nat /\
    led w2 = false.
Proof.
  destruct (boot_low_battery_unindicated
              (mk_config 1000 2000 100 500 80 20 5 true false false true true)
              (mk_env 0 true false false 0 (fun _ => 12))
              0%nat 12 boot_world)
    as [item [w1 [w2 [H1 [_ [_ [H2 [_ [H3 [_ [H4 H5]]]]]]]]]]].
  - split; [lia|]. split; [intros j Hj; lia | left; simpl; discriminate].
  - reflexivity.
  - simpl. lia.
  - simpl. lia.
  - reflexivity.
  - reflexivity.
  - exists item, w1, w2. repeat split; assumption.
Defined.

(** ** C10: only the boot thread marks an item as first *)

Lemma layer_loop_total (c : config) (index : Z) (w : world) :
  for_loop (Z.to_nat index) 0 index
    (fun i =>
       if i <? index - 1
       then k_msgq_put (layer_blink c) ;; ret tt
       else k_msgq_put (layer_final_blink c) ;; ret tt) w
  = Some (tt, put_all (layer_rounds c (Z.to_nat index)) w).
Proof.
  destruct (Z.le_gt_cases 0 index) as [H|H].
  - apply layer_loop_run; [apply le_n | rewrite Z2Nat.id; lia].
  - replace (Z.to_nat index) with 0%nat by lia. simpl.
    destruct (Z.ltb_spec 0 index); [lia | reflexivity].
Qed.

Lemma layer_rounds_first_item (c : config) (n : nat) :
  Forall (fun b => first_item b = false) (layer_rounds c n).
Proof.
  destruct n as [|m]; simpl; [constructor|].
  apply Forall_app. split.
  - apply Forall_forall. intros b Hb. apply repeat_spec in Hb. subst b.
    reflexivity.
  - repeat constructor.
Qed.

(** After a plain item the renderer sleeps for the default interval. *)
Lemma plain_item_default_gap (c : config) (b : blink_item)
    (q : list blink_item) (w : world) :
  plain_item b ->
  led_msgq w = b :: q ->
  exists w', led_process_iteration c w = Some (tt, w') /\
             log w' = log w ++ A_get b :: spec_render (rate b)
                            ++ [A_sleep (INTERVAL_MS c)].
Proof.
  intros [Hs _] Hq. eexists.
  split; [apply (led_process_iteration_run c b q w Hq)|].
  simpl. rewrite Hs. reflexivity.
Qed.

(** C10.  Every item the connectivity listener or the battery listener
    puts has [sleep_ms = 0] and [first_item = false], so the renderer
    sleeps for the default interval after it; the items of the layer
    listener have [first_item = false] too.  Of the items the boot
    thread puts, the battery item, and no other, has
    [first_item = true]. *)
Theorem only_boot_battery_item_is_first (c : config) (e : env) (w : world)
    (bev : zmk_battery_state_changed) (lev : zmk_layer_state_changed) :
  (exists new w',
      led_output_listener_cb c e w = Some (0, w') /\
      log w' = log w ++ new /\
      Forall plain_item (put_calls new)) /\
  (exists new w',
      led_battery_listener_cb c bev w = Some (0, w') /\
      log w' = log w ++ new /\
      Forall plain_item (put_calls new)) /\
  (exists new w',
      led_layer_listener_cb c e lev w = Some (0, w') /\
      log w' = log w ++ new /\
      Forall (fun b => first_item b = false) (put_calls new)) /\
  (exists new w',
      led_init_thread c e w = Some (tt, w') /\
      log w' = log w ++ new /\
      forall b, In b (put_calls new) ->
                (first_item b = true /\ ZMK_BATTERY_REPORTING c = true /\
                 exists level, b = boot_battery_item c level) \/
                (plain_item b /\ b = connectivity_item c e)) /\
  (forall (b : blink_item) (q : list blink_item) (w0 : world),
      plain_item b -> led_msgq w0 = b :: q ->
      exists w1, led_process_iteration c w0 = Some (tt, w1) /\
                 log w1 = log w0 ++ A_get b :: spec_render (rate b)
                                 ++ [A_sleep (INTERVAL_MS c)]).
Proof.
  split; [|split; [|split; [|split]]].
  - unfold led_output_listener_cb.
    rewrite (bind_some _ _ w (initialized w) w eq_refl).
    destruct (initialized w).
    + rewrite (bind_some _ _ w tt _ (output_blink_run c e w)).
      eexists. eexists. split; [reflexivity|]. split; [reflexivity|].
      simpl. repeat constructor.
    + exists [], w. rewrite app_nil_r. repeat split. constructor.
  - unfold led_battery_listener_cb.
    rewrite (bind_some _ _ w (initialized w) w eq_refl).
    destruct (initialized w); cbn [negb].
    + destruct ((0 <? state_of_charge bev)
                && (state_of_charge bev <=? BATTERY_LEVEL_CRITICAL c)).
      * rewrite (bind_some _ _ w _ _ (k_msgq_put_run _ w)).
        eexists. eexists. split; [reflexivity|]. split; [reflexivity|].
        simpl. repeat constructor.
      * exists [], w. rewrite app_nil_r. repeat split. constructor.
    + exists [], w. rewrite app_nil_r. repeat split. constructor.
  - unfold led_layer_listener_cb.
    rewrite (bind_some _ _ w (initialized w) w eq_refl).
    destruct (initialized w); cbn [negb];
      [|exists [], w; rewrite app_nil_r; repeat split; constructor].
    destruct (state lev); cbn [negb];
      [|exists [], w; rewrite app_nil_r; repeat split; constructor].
    cbv beta iota zeta.
    rewrite (bind_some _ _ w tt _
               (layer_loop_total c (zmk_keymap_highest_layer_active e) w)).
    set (items := layer_rounds c (Z.to_nat (zmk_keymap_highest_layer_active e))).
    assert (Hlog : forall l w0, exists new,
               log (put_all l w0) = log w0 ++ new /\ put_calls new = l).
    { induction l as [|b l IH]; intros w0.
      - exists []. simpl. rewrite app_nil_r. split; reflexivity.
      - change (put_all (b :: l) w0) with (put_all l (put_world b w0)).
        destruct (IH (put_world b w0)) as [new [H1 H2]].
        eexists. split.
        + rewrite H1. simpl. rewrite <- app_assoc. reflexivity.
        + simpl. rewrite H2. reflexivity. }
    destruct (Hlog items w) as [new [H1 H2]].
    exists new, (put_all items w). split; [reflexivity|].
    split; [exact H1|]. rewrite H2. apply layer_rounds_first_item.
  - destruct (stops_after_exists e (soc_calls w)) as [k Hk].
    rewrite (led_init_thread_run c e k w Hk).
    unfold boot_thread_world.
    destruct (boot_battery_item_fields c
                (zmk_battery_state_of_charge e (soc_calls w + k))) as [F1 _].
    assert (Hret : forall cs n l, put_calls (retry_actions e cs n ++ l)
                                  = put_calls l).
    { intros cs n l. revert cs. induction n as [|n IH]; intros cs; simpl;
        [reflexivity | apply IH]. }
    destruct (ZMK_BATTERY_REPORTING c), (ZMK_BLE c); simpl;
      eexists; eexists; (split; [reflexivity|]).
    + split; [repeat (rewrite <- app_assoc; simpl); reflexivity|].
      cbn [put_calls]. rewrite Hret. simpl. intros b [Hb|[Hb|[]]]; subst b.
      * left. split; [exact F1|]. split; [reflexivity|]. eexists; reflexivity.
      * right. repeat split.
    + split; [repeat (rewrite <- app_assoc; simpl); reflexivity|].
      cbn [put_calls]. rewrite Hret. simpl. intros b [Hb|[]]; subst b.
      left. split; [exact F1|]. split; [reflexivity|]. eexists; reflexivity.
    + split; [reflexivity|]. simpl. intros b [Hb|[]]; subst b.
      right. repeat split.
    + split; [symmetry; apply app_nil_r|]. simpl. intros b [].
  - intros b q w0 Hp Hq. apply (plain_item_default_gap c b q w0 Hp Hq).
Qed.

(** * Further properties of the code *)

(** ** Helper facts *)

Lemma sleep_total_app (l1 l2 : list action) :
  sleep_total (l1 ++ l2) = sleep_total l1 + sleep_total l2.
Proof.
  induction l1 as [|a l1 IH]; simpl; [reflexivity|].
  destruct a; simpl; rewrite IH; lia.
Qed.

Lemma led_calls_app (l1 l2 : list action) :
  led_calls (l1 ++ l2) = led_calls l1 ++ led_calls l2.
Proof.
  induction l1 as [|a l1 IH]; simpl; [reflexivity|].
  destruct a; simpl; rewrite IH; reflexivity.
Qed.

Lemma get_calls_app (l1 l2 : list action) :
  get_calls (l1 ++ l2) = get_calls l1 ++ get_calls l2.
Proof.
  induction l1 as [|a l1 IH]; simpl; [reflexivity|].
  destruct a; simpl; rewrite IH; reflexivity.
Qed.

Lemma bind_none {A B : Type} (m : M A) (f : A -> M B) (w : world) :
  m w = None -> bind m f w = None.
Proof. intros H. unfold bind. rewrite H. reflexivity. Qed.

Lemma led_process_iteration_empty (c : config) (w : world) :
  led_msgq w = [] -> led_process_iteration c w = None.
Proof.
  intros Hq. unfold led_process_iteration. apply bind_none.
  unfold k_msgq_get. rewrite Hq. reflexivity.
Qed.

(** [n] rounds of the renderer on a queue of at least [n] items. *)
Lemma led_process_thread_run (c : config) (n : nat) :
  forall w : world,
    (n <= length (led_msgq w))%nat ->
    led_process_thread n c w = Some (tt, drained_world c n w).
Proof.
  induction n as [|n IH]; intros w Hn.
  - simpl. unfold ret, drained_world. simpl.
    rewrite app_nil_r, world_eta. reflexivity.
  - destruct (led_msgq w) as [|b q] eqn:Hq; simpl in Hn; [lia|].
    simpl led_process_thread.
    rewrite (bind_some _ _ w tt _ (led_process_iteration_run c b q w Hq)).
    rewrite IH by (simpl; lia).
    unfold drained_world. rewrite Hq. simpl.
    unfold round_actions, render_gap.
    repeat (rewrite <- app_assoc; simpl).
    destruct n; reflexivity.
Qed.

(** More rounds than items: the renderer stays blocked in [k_msgq_get]. *)
Lemma led_process_thread_short (c : config) (n : nat) :
  forall w : world,
    (length (led_msgq w) < n)%nat -> led_process_thread n c w = None.
Proof.
  induction n as [|n IH]; intros w Hn; [lia|].
  simpl led_process_thread.
  destruct (led_msgq w) as [|b q] eqn:Hq.
  - apply bind_none, led_process_iteration_empty, Hq.
  - rewrite (bind_some _ _ w tt _ (led_process_iteration_run c b q w Hq)).
    apply IH. simpl in *. lia.
Qed.

Lemma round_actions_readings (c : config) (items : list blink_item) :
  get_calls (flat_map (round_actions c) items) = items /\
  put_calls (flat_map (round_actions c) items) = [] /\
  led_on_count (flat_map (round_actions c) items)
  = length (filter lights_led items) /\
  sleep_total (flat_map (round_actions c) items)
  = fold_right Z.add 0 (map (round_time c) items).
Proof.
  induction items as [|b items [IH1 [IH2 [IH3 IH4]]]]; [repeat split|].
  cbn [flat_map]. unfold round_actions at 1 3 5 7.
  cbn [get_calls put_calls led_on_count sleep_total app].
  rewrite get_calls_app, put_calls_app, led_on_count_app, sleep_total_app.
  rewrite get_calls_app, put_calls_app, led_on_count_app, sleep_total_app.
  rewrite IH1, IH2, IH3, IH4.
  unfold lights_led, round_time. cbn [filter map fold_right].
  unfold lights_led.
  destruct (rate b);
    cbn [spec_render pulse_pair spec_half_period_ms get_calls put_calls
         led_on_count sleep_total app length];
    repeat split; try reflexivity; lia.
Qed.

(** ** The renderer over a whole queue *)

(** X1.  Given a queue of at least [n] items, [n] rounds of the
    renderer return; they take exactly the [n] oldest items, in queue
    order, finish each item (its LED calls and its closing sleep)
    before the next [k_msgq_get], leave the younger items queued, put
    nothing on the queue and do not touch [initialized]. *)
Theorem renderer_serves_in_fifo_order (c : config) (n : nat) (w : world) :
  (n <= length (led_msgq w))%nat ->
  exists w',
    led_process_thread n c w = Some (tt, w') /\
    log w' = log w ++ flat_map (round_actions c) (firstn n (led_msgq w)) /\
    get_calls (log w') = get_calls (log w) ++ firstn n (led_msgq w) /\
    led_msgq w' = skipn n (led_msgq w) /\
    put_calls (log w') = put_calls (log w) /\
    initialized w' = initialized w.
Proof.
  intros Hn. exists (drained_world c n w).
  split; [apply led_process_thread_run, Hn|].
  destruct (round_actions_readings c (firstn n (led_msgq w)))
    as [Hg [Hp _]].
  unfold drained_world. simpl.
  rewrite get_calls_app, put_calls_app, Hg, Hp, app_nil_r.
  repeat split.
Qed.

Lemma renderer_serves_in_fifo_order_witness :
  exists w',
    led_process_thread 2
      (mk_config 1000 2000 100 500 80 20 5 true false false true true)
      {| led_msgq := [mk_blink_item BLINK_FAST 2000 false 0;
                      mk_blink_item BLINK_OFF 1000 false 0;
                      mk_blink_item BLINK_SLOW 1000 false 0];
         initialized := true; led := false; soc_calls := 0%nat; log := [] |}
    = Some (tt, w') /\
    get_calls (log w') = [mk_blink_item BLINK_FAST 2000 false 0;
                          mk_blink_item BLINK_OFF 1000 false 0] /\
    led_msgq w' = [mk_blink_item BLINK_SLOW 1000 false 0].
Proof.
  destruct (renderer_serves_in_fifo_order
              (mk_config 1000 2000 100 500 80 20 5 true false false true true)
              2%nat
              {| led_msgq := [mk_blink_item BLINK_FAST 2000 false 0;
                              mk_blink_item BLINK_OFF 1000 false 0;
                              mk_blink_item BLINK_SLOW 1000 false 0];
                 initialized := true; led := false; soc_calls := 0%nat;
                 log := [] |})
    as [w' [H1 [_ [H2 [H3 _]]]]].
  - simpl. lia.
  - exists w'. split; [exact H1|]. split; [exact H2 | exact H3].
Defined.

(** X2.  [n] rounds of the renderer return exactly when the queue
    holds at least [n] items; with fewer the thread stays blocked in
    [k_msgq_get] and never reaches the end of round [n]. *)
Theorem renderer_returns_iff_enough_items (c : config) (n : nat) (w : world) :
  (exists w', led_process_thread n c w = Some (tt, w'))
  <-> (n <= length (led_msgq w))%nat.
Proof.
  split.
  - intros [w' H]. destruct (Nat.le_gt_cases n (length (led_msgq w)))
      as [Hle|Hgt]; [exact Hle|].
    rewrite (led_process_thread_short c n w Hgt) in H. discriminate.
  - intros Hn. eexists. apply led_process_thread_run, Hn.
Qed.

(** X3.  Over [n] rounds the renderer switches the LED on exactly once
    for every served item whose rate is not [BLINK_OFF] and never for a
    [BLINK_OFF] item, whatever the items' [duration_ms]; after at
    least one round the LED is off. *)
Theorem renderer_lights_once_per_item (c : config) (n : nat) (w : world) :
  (n <= length (led_msgq w))%nat ->
  exists w',
    led_process_thread n c w = Some (tt, w') /\
    led_on_count (log w')
    = (led_on_count (log w)
       + length (filter lights_led (firstn n (led_msgq w))))%nat /\
    ((0 < n)%nat -> led w' = false).
Proof.
  intros Hn. exists (drained_world c n w).
  split; [apply led_process_thread_run, Hn|].
  destruct (round_actions_readings c (firstn n (led_msgq w)))
    as [_ [_ [Hc _]]].
  unfold drained_world. simpl. rewrite led_on_count_app, Hc.
  split; [reflexivity|]. intros H0. destruct n; [lia | reflexivity].
Qed.

Lemma renderer_lights_once_per_item_witness :
  exists w',
    led_process_thread 3
      (mk_config 1000 2000 100 500 80 20 5 true false false true true)
      {| led_msgq := [mk_blink_item BLINK_FAST 2000 false 0;
                      mk_blink_item BLINK_OFF 1000 false 0;
                      mk_blink_item BLINK_SLOW 1000 false 0];
         initialized := true; led := true; soc_calls := 0%nat; log := [] |}
    = Some (tt, w') /\
    led_on_count (log w') = 2%nat /\ led w' = false.
Proof.
  destruct (renderer_lights_once_per_item
              (mk_config 1000 2000 100 500 80 20 5 true false false true true)
              3%nat
              {| led_msgq := [mk_blink_item BLINK_FAST 2000 false 0;
                              mk_blink_item BLINK_OFF 1000 false 0;
                              mk_blink_item BLINK_SLOW 1000 false 0];
                 initialized := true; led := true; soc_calls := 0%nat;
                 log := [] |})
    as [w' [H1 [H2 H3]]].
  - simpl. lia.
  - exists w'. split; [exact H1|]. split; [exact H2 | apply H3; lia].
Defined.

(** X4.  The time the renderer sleeps over [n] rounds is the sum, over
    the served items, of twice the rate's half-period (nothing for
    [BLINK_OFF]) plus the closing sleep: the item's [sleep_ms] when it
    is above 0, the default interval otherwise.  [duration_ms] has no
    part in it. *)
Theorem renderer_busy_time (c : config) (n : nat) (w : world) :
  (n <= length (led_msgq w))%nat ->
  exists w',
    led_process_thread n c w = Some (tt, w') /\
    sleep_total (log w')
    = sleep_total (log w)
      + fold_right Z.add 0
          (map (fun b => 2 * spec_half_period_ms (rate b)
                         + (if 0 <? sleep_ms b then sleep_ms b
                            else INTERVAL_MS c))
               (firstn n (led_msgq w))).
Proof.
  intros Hn. exists (drained_world c n w).
  split; [apply led_process_thread_run, Hn|].
  destruct (round_actions_readings c (firstn n (led_msgq w)))
    as [_ [_ [_ Ht]]].
  unfold drained_world. simpl. rewrite sleep_total_app, Ht. reflexivity.
Qed.

Lemma renderer_busy_time_witness :
  exists w',
    led_process_thread 2
      (mk_config 1000 2000 100 500 80 20 5 true false false true true)
      {| led_msgq := [mk_blink_item BLINK_FRANTIC 100 false 100;
                      mk_blink_item BLINK_MEDIUM 100 false 0];
         initialized := true; led := false; soc_calls := 0%nat; log := [] |}
    = Some (tt, w') /\
    sleep_total (log w') = 940.
Proof.
  destruct (renderer_busy_time
              (mk_config 1000 2000 100 500 80 20 5 true false false true true)
              2%nat
              {| led_msgq := [mk_blink_item BLINK_FRANTIC 100 false 100;
                              mk_blink_item BLINK_MEDIUM 100 false 0];
                 initialized := true; led := false; soc_calls := 0%nat;
                 log := [] |})
    as [w' [H1 H2]].
  - simpl. lia.
  - exists w'. split; [exact H1 | exact H2].
Defined.

(** ** The producers *)

Lemma led_output_listener_cb_run (c : config) (e : env) (w : world) :
  led_output_listener_cb c e w =
  Some (0, if initialized w then put_world (connectivity_item c e) w else w).
Proof.
  unfold led_output_listener_cb.
  rewrite (bind_some _ _ w (initialized w) w eq_refl).
  destruct (initialized w).
  - rewrite (bind_some _ _ w tt _ (output_blink_run c e w)). reflexivity.
  - reflexivity.
Qed.

Lemma led_battery_listener_cb_run (c : config)
    (eh : zmk_battery_state_changed) (w : world) :
  led_battery_listener_cb c eh w =
  Some (0, if initialized w
              && ((0 <? state_of_charge eh)
                  && (state_of_charge eh <=? BATTERY_LEVEL_CRITICAL c))
           then put_world (battery_warning_item c) w else w).
Proof.
  unfold led_battery_listener_cb.
  rewrite (bind_some _ _ w (initialized w) w eq_refl).
  destruct (initialized w); cbn [negb andb]; [|reflexivity].
  destruct ((0 <? state_of_charge eh)
            && (state_of_charge eh <=? BATTERY_LEVEL_CRITICAL c));
    [|reflexivity].
  rewrite (bind_some _ _ w _ _ (k_msgq_put_run _ w)). reflexivity.
Qed.

Lemma led_layer_listener_cb_run (c : config) (e : env)
    (eh : zmk_layer_state_changed) (w : world) :
  led_layer_listener_cb c e eh w =
  Some (0, if initialized w && state eh
           then put_all
                  (layer_rounds c
                     (Z.to_nat (zmk_keymap_highest_layer_active e))) w
           else w).
Proof.
  unfold led_layer_listener_cb.
  rewrite (bind_some _ _ w (initialized w) w eq_refl).
  destruct (initialized w); cbn [negb andb]; [|reflexivity].
  destruct (state eh); cbn [negb]; [|reflexivity].
  cbv beta iota zeta.
  rewrite (bind_some _ _ w tt _
             (layer_loop_total c (zmk_keymap_highest_layer_active e) w)).
  reflexivity.
Qed.

Lemma only_appends_refl (w : world) : only_appends w w.
Proof.
  unfold only_appends. repeat split; try tauto.
  exists []. rewrite app_nil_r. reflexivity.
Qed.

Lemma only_appends_trans (w1 w2 w3 : world) :
  only_appends w1 w2 -> only_appends w2 w3 -> only_appends w1 w3.
Proof.
  intros [A1 [A2 [A3 [A4 [[a Ha] A6]]]]] [B1 [B2 [B3 [B4 [[b Hb] B6]]]]].
  unfold only_appends. repeat split; try congruence; try tauto.
  exists (a ++ b). rewrite Hb, Ha, app_assoc. reflexivity.
Qed.

Lemma only_appends_put_world (b : blink_item) (w : world) :
  only_appends w (put_world b w).
Proof.
  unfold only_appends, put_world. simpl.
  rewrite led_calls_app, get_calls_app. simpl. repeat rewrite app_nil_r.
  repeat split; try tauto.
  - unfold try_enqueue.
    destruct (length (led_msgq w) <? led_msgq_capacity)%nat; simpl.
    + exists [b]. reflexivity.
    + exists []. rewrite app_nil_r. reflexivity.
  - intros H. apply try_enqueue_bounded. exact H.
Qed.

Lemma only_appends_put_all (items : list blink_item) (w : world) :
  only_appends w (put_all items w).
Proof.
  revert w. induction items as [|b items IH]; intros w.
  - apply only_appends_refl.
  - change (put_all (b :: items) w) with (put_all items (put_world b w)).
    apply (only_appends_trans _ (put_world b w));
      [apply only_appends_put_world | apply IH].
Qed.

Lemma retry_actions_readings (e : env) (k : nat) :
  forall (cs : nat) (l : list action),
    led_calls (retry_actions e cs k ++ l) = led_calls l /\
    get_calls (retry_actions e cs k ++ l) = get_calls l /\
    put_calls (retry_actions e cs k ++ l) = put_calls l /\
    sleep_total (retry_actions e cs k ++ l)
    = 100 * Z.of_nat k + sleep_total l.
Proof.
  induction k as [|k IH]; intros cs l.
  - simpl. repeat split.
  - destruct (IH (S cs) l) as [H1 [H2 [H3 H4]]].
    cbn [retry_actions app led_calls get_calls put_calls sleep_total].
    rewrite H1, H2, H3, H4. repeat split. lia.
Qed.

Lemma only_appends_boot_battery (c : config) (e : env) (k : nat) (w : world) :
  only_appends w (boot_battery_world c e k w).
Proof.
  unfold only_appends, boot_battery_world. cbv zeta. simpl.
  rewrite led_calls_app, get_calls_app.
  cbn [led_calls get_calls].
  destruct (retry_actions_readings e k (S (soc_calls w))
              [A_put (boot_battery_item c
                        (zmk_battery_state_of_charge e (soc_calls w + k)))
                 (fst (try_enqueue (led_msgq w)
                         (boot_battery_item c
                            (zmk_battery_state_of_charge e (soc_calls w + k)))));
               A_sleep (BATTERY_BLINK_MS c + INTERVAL_MS c)])
    as [H1 [H2 _]].
  rewrite H1, H2. simpl. repeat rewrite app_nil_r.
  repeat split; try tauto.
  - unfold try_enqueue.
    destruct (length (led_msgq w) <? led_msgq_capacity)%nat; simpl.
    + eexists. reflexivity.
    + exists []. rewrite app_nil_r. reflexivity.
  - intros H. apply try_enqueue_bounded. exact H.
Qed.

Lemma only_appends_boot_thread (c : config) (e : env) (k : nat) (w : world) :
  only_appends w (boot_thread_world c e k w).
Proof.
  unfold boot_thread_world. cbv zeta.
  match goal with
  | |- only_appends w {| led_msgq := led_msgq ?w2; initialized := _;
                         led := _; soc_calls := _; log := _ |} =>
      assert (H2 : only_appends w w2)
  end.
  { destruct (ZMK_BATTERY_REPORTING c), (ZMK_BLE c).
    - apply (only_appends_trans _ (boot_battery_world c e k w));
        [apply only_appends_boot_battery | apply only_appends_put_world].
    - apply only_appends_boot_battery.
    - apply only_appends_put_world.
    - apply only_appends_refl. }
  destruct H2 as [A1 [A2 [A3 [A4 [A5 A6]]]]].
  unfold only_appends. simpl. repeat split; assumption.
Qed.

(** X5.  The three listeners and the boot thread always return, and
    whatever the event, the configuration and the answers of ZMK they
    never call the LED driver and never take an item off the queue:
    the LED stays as it was, [initialized] is not cleared, the pending
    items keep their places and new items come behind them, and a
    queue of at most 16 items stays one. *)
Theorem producers_only_append (c : config) (e : env) (w : world)
    (bev : zmk_battery_state_changed) (lev : zmk_layer_state_changed) :
  (exists w', led_output_listener_cb c e w = Some (0, w') /\
              only_appends w w') /\
  (exists w', led_battery_listener_cb c bev w = Some (0, w') /\
              only_appends w w') /\
  (exists w', led_layer_listener_cb c e lev w = Some (0, w') /\
              only_appends w w') /\
  (exists w', led_init_thread c e w = Some (tt, w') /\
              only_appends w w' /\ initialized w' = true).
Proof.
  split; [|split; [|split]].
  - eexists. split; [apply led_output_listener_cb_run|].
    destruct (initialized w);
      [apply only_appends_put_world | apply only_appends_refl].
  - eexists. split; [apply led_battery_listener_cb_run|].
    destruct (initialized w
              && ((0 <? state_of_charge bev)
                  && (state_of_charge bev <=? BATTERY_LEVEL_CRITICAL c)));
      [apply only_appends_put_world | apply only_appends_refl].
  - eexists. split; [apply led_layer_listener_cb_run|].
    destruct (initialized w && state lev);
      [apply only_appends_put_all | apply only_appends_refl].
  - destruct (stops_after_exists e (soc_calls w)) as [k Hk].
    eexists. split; [apply (led_init_thread_run c e k w Hk)|].
    split; [apply only_appends_boot_thread | reflexivity].
Qed.

(** ** Overflow while a listener is putting *)

Lemma put_all_overflow (items : list blink_item) :
  forall w : world,
    (length (led_msgq w) <= 16)%nat ->
    led_msgq (put_all items w) = firstn 16 (led_msgq w ++ items).
Proof.
  induction items as [|b items IH]; intros w Hlen.
  - change (put_all [] w) with w. rewrite app_nil_r. symmetry.
    apply firstn_all2. exact Hlen.
  - change (put_all (b :: items) w) with (put_all items (put_world b w)).
    rewrite IH;
      change (led_msgq (put_world b w))
        with (snd (try_enqueue (led_msgq w) b)).
    + unfold try_enqueue.
      destruct (Nat.ltb_spec (length (led_msgq w)) led_msgq_capacity) as [H|H];
        cbn [snd].
      * rewrite <- app_assoc. reflexivity.
      * unfold led_msgq_capacity in H.
        rewrite !firstn_app.
        replace (16 - length (led_msgq w))%nat with 0%nat by lia.
        rewrite !firstn_O. reflexivity.
    + apply try_enqueue_bounded. exact Hlen.
Qed.

Lemma layer_rounds_length (c : config) (n : nat) :
  length (layer_rounds c n) = n.
Proof.
  destruct n as [|m]; [reflexivity|]. simpl.
  rewrite length_app, repeat_length. simpl. lia.
Qed.

Lemma layer_rounds_cut (c : config) (n m : nat) :
  (m < n)%nat ->
  firstn m (layer_rounds c n) = repeat (layer_blink c) m.
Proof.
  intros H. destruct n as [|k]; [lia|]. simpl.
  rewrite firstn_app, repeat_length.
  replace (m - k)%nat with 0%nat by lia. rewrite firstn_O, app_nil_r.
  assert (Hmk : (m <= k)%nat) by lia. clear H.
  revert k Hmk. induction m as [|m IH]; intros k Hmk; [reflexivity|].
  destruct k as [|k]; [lia|]. simpl. rewrite IH by lia. reflexivity.
Qed.

(** X6.  A layer activation always makes all its calls to
    [k_msgq_put], but when the queue (of at most 16 items) has room for
    only some of them, the earliest of the new items fill the room and
    the rest are dropped: what gets in are frantic blinks only, the
    closing medium blink is lost, and the pending items are kept. *)
Theorem layer_listener_overflow (c : config) (e : env)
    (eh : zmk_layer_state_changed) (w : world) :
  initialized w = true ->
  state eh = true ->
  (length (led_msgq w) <= 16)%nat ->
  exists w',
    led_layer_listener_cb c e eh w = Some (0, w') /\
    put_calls (log w')
    = put_calls (log w)
      ++ layer_rounds c (Z.to_nat (zmk_keymap_highest_layer_active e)) /\
    led_msgq w'
    = led_msgq w
      ++ firstn (16 - length (led_msgq w))
           (layer_rounds c (Z.to_nat (zmk_keymap_highest_layer_active e))) /\
    ((16 - length (led_msgq w)
      < Z.to_nat (zmk_keymap_highest_layer_active e))%nat ->
     led_msgq w'
     = led_msgq w ++ repeat (layer_blink c) (16 - length (led_msgq w)) /\
     rate (layer_blink c) = BLINK_FRANTIC /\
     length (led_msgq w') = 16%nat).
Proof.
  intros Hi Hs Hlen.
  set (n := Z.to_nat (zmk_keymap_highest_layer_active e)).
  exists (put_all (layer_rounds c n) w).
  assert (Hq : led_msgq (put_all (layer_rounds c n) w)
               = led_msgq w ++ firstn (16 - length (led_msgq w))
                                  (layer_rounds c n)).
  { rewrite (put_all_overflow _ w Hlen), firstn_app.
    rewrite (firstn_all2 (led_msgq w) Hlen).
    reflexivity. }
  split.
  { rewrite led_layer_listener_cb_run, Hi, Hs. reflexivity. }
  split.
  { destruct (put_all_frame (layer_rounds c n) w) as [_ [_ [_ [Hp _]]]].
    exact Hp. }
  split; [exact Hq|].
  intros Hover. rewrite Hq, (layer_rounds_cut c n _ Hover).
  split; [reflexivity|]. split; [reflexivity|].
  rewrite length_app, repeat_length. lia.
Qed.

Lemma layer_listener_overflow_witness :
  exists w',
    led_layer_listener_cb
      (mk_config 1000 2000 100 500 80 20 5 true false false true true)
      (mk_env 0 true false false 3 (fun _ => 90))
      (mk_layer_ev 3 true 0)
      {| led_msgq := repeat (mk_blink_item BLINK_SLOW 1000 false 0) 14;
         initialized := true; led := false; soc_calls := 0%nat; log := [] |}
    = Some (0, w') /\
    length (put_calls (log w')) = 3%nat /\
    led_msgq w'
    = repeat (mk_blink_item BLINK_SLOW 1000 false 0) 14
      ++ [mk_blink_item BLINK_FRANTIC 100 false 100;
          mk_blink_item BLINK_FRANTIC 100 false 100].
Proof.
  destruct (layer_listener_overflow
              (mk_config 1000 2000 100 500 80 20 5 true false false true true)
              (mk_env 0 true false false 3 (fun _ => 90))
              (mk_layer_ev 3 true 0)
              {| led_msgq := repeat (mk_blink_item BLINK_SLOW 1000 false 0) 14;
                 initialized := true; led := false; soc_calls := 0%nat;
                 log := [] |} eq_refl eq_refl)
    as [w' [H1 [H2 [H3 _]]]].
  - simpl. lia.
  - exists w'. split; [exact H1|]. split.
    + rewrite H2. reflexivity.
    + exact H3.
Defined.

(** ** The boot thread as a whole *)

(** X7.  The boot thread always returns, whatever the gauge answers.
    With battery reporting it asks the gauge [k + 1] times, with
    [k <= 10] the number of leading zero answers (capped at 10), and
    sleeps 100 ms for each of the [k] retries plus the battery blink
    time and the interval; without it, it neither asks nor sleeps.  It
    makes at most two calls to [k_msgq_put]. *)
Theorem boot_thread_bounded (c : config) (e : env) (w : world) :
  exists (k : nat) (w' : world),
    (k <= 10)%nat /\
    (forall j, (j < k)%nat ->
               zmk_battery_state_of_charge e (soc_calls w + j) = 0) /\
    (zmk_battery_state_of_charge e (soc_calls w + k) <> 0 \/ k = 10%nat) /\
    led_init_thread c e w = Some (tt, w') /\
    soc_calls w'
    = (soc_calls w + (if ZMK_BATTERY_REPORTING c then S k else 0))%nat /\
    sleep_total (log w')
    = sleep_total (log w)
      + (if ZMK_BATTERY_REPORTING c
         then 100 * Z.of_nat k + (BATTERY_BLINK_MS c + INTERVAL_MS c)
         else 0) /\
    length (put_calls (log w'))
    = (length (put_calls (log w))
       + (if ZMK_BATTERY_REPORTING c then 1 else 0)
       + (if ZMK_BLE c then 1 else 0))%nat.
Proof.
  destruct (stops_after_exists e (soc_calls w)) as [k Hk].
  exists k, (boot_thread_world c e k w).
  destruct Hk as [Hk1 [Hk2 Hk3]].
  split; [exact Hk1|]. split; [exact Hk2|]. split; [exact Hk3|].
  split; [apply led_init_thread_run; repeat split; assumption|].
  unfold boot_thread_world, boot_battery_world. cbv zeta.
  set (item := boot_battery_item c
                 (zmk_battery_state_of_charge e (soc_calls w + k))).
  destruct (retry_actions_readings e k (S (soc_calls w))
              [A_put item (fst (try_enqueue (led_msgq w) item));
               A_sleep (BATTERY_BLINK_MS c + INTERVAL_MS c)])
    as [_ [_ [Hp Ht]]].
  destruct (ZMK_BATTERY_REPORTING c), (ZMK_BLE c);
    cbn [log soc_calls put_world led_msgq];
    repeat rewrite sleep_total_app; repeat rewrite put_calls_app;
    cbn [sleep_total put_calls]; try rewrite Hp; try rewrite Ht;
    cbn [sleep_total put_calls]; repeat rewrite length_app;
    cbn [length]; repeat split; lia.
Qed.

(** ** Boot, events and renderer together *)

(** X8.  Once the boot thread has run, from any world and under any
    configuration, the gate is open and stays open while the renderer
    works: after any number of renderer rounds a critical battery
    event is answered by one put of the warning item and a
    connectivity event by one put of the connectivity item. *)
Theorem listeners_live_after_boot (c : config) (e e' : env)
    (bev : zmk_battery_state_changed) (w : world) :
  0 < state_of_charge bev <= BATTERY_LEVEL_CRITICAL c ->
  exists w1,
    led_init_thread c e w = Some (tt, w1) /\
    forall n, (n <= length (led_msgq w1))%nat ->
      exists w2 w3 w4,
        led_process_thread n c w1 = Some (tt, w2) /\
        led_battery_listener_cb c bev w2 = Some (0, w3) /\
        put_calls (log w3) = put_calls (log w2) ++ [battery_warning_item c] /\
        rate (battery_warning_item c) = BLINK_FAST /\
        led_output_listener_cb c e' w3 = Some (0, w4) /\
        put_calls (log w4) = put_calls (log w3) ++ [connectivity_item c e'].
Proof.
  intros [H0 Hc].
  destruct (stops_after_exists e (soc_calls w)) as [k Hk].
  exists (boot_thread_world c e k w).
  split; [apply led_init_thread_run, Hk|].
  intros n Hn.
  set (w1 := boot_thread_world c e k w) in *.
  exists (drained_world c n w1),
    (put_world (battery_warning_item c) (drained_world c n w1)),
    (put_world (connectivity_item c e')
       (put_world (battery_warning_item c) (drained_world c n w1))).
  split; [apply led_process_thread_run, Hn|].
  split.
  { rewrite led_battery_listener_cb_run.
    change (initialized (drained_world c n w1)) with true.
    destruct (Z.ltb_spec 0 (state_of_charge bev)); [|lia].
    destruct (Z.leb_spec (state_of_charge bev) (BATTERY_LEVEL_CRITICAL c));
      [|lia].
    reflexivity. }
  split; [cbn [put_world log]; rewrite put_calls_app; reflexivity|].
  split; [reflexivity|].
  split.
  { rewrite led_output_listener_cb_run. reflexivity. }
  cbn [put_world log]. rewrite !put_calls_app. reflexivity.
Qed.

Lemma listeners_live_after_boot_witness :
  exists w1 w3,
    led_init_thread
      (mk_config 1000 2000 100 500 80 20 5 true false false true true)
      (mk_env 0 true false false 0 (fun _ => 90)) boot_world
    = Some (tt, w1) /\
    led_battery_listener_cb
      (mk_config 1000 2000 100 500 80 20 5 true false false true true)
      (mk_battery_ev 4) w1 = Some (0, w3) /\
    put_calls (log w3)
    = put_calls (log w1) ++ [mk_blink_item BLINK_FAST 2000 false 0].
Proof.
  destruct (listeners_live_after_boot
              (mk_config 1000 2000 100 500 80 20 5 true false false true true)
              (mk_env 0 true false false 0 (fun _ => 90))
              (mk_env 0 true false false 0 (fun _ => 90))
              (mk_battery_ev 4) boot_world) as [w1 [H1 H2]].
  - simpl. lia.
  - destruct (H2 0%nat (Nat.le_0_l _)) as [w2 [w3 [w4 [R [B [P _]]]]]].
    simpl in R. injection R as R. subst w2.
    exists w1, w3. split; [exact H1|]. split; [exact B | exact P].
Defined.

(** X9.  With the gate open and room for two items, a critical battery
    event followed by a connectivity event leaves the queue with the
    pending items, then the warning item, then the connectivity item;
    the renderer then serves all of them in exactly that order and
    empties the queue. *)
Theorem warning_then_connectivity_in_order (c : config) (e : env)
    (bev : zmk_battery_state_changed) (w : world) :
  initialized w = true ->
  (length (led_msgq w) + 2 <= 16)%nat ->
  0 < state_of_charge bev <= BATTERY_LEVEL_CRITICAL c ->
  exists w1 w2 w3,
    led_battery_listener_cb c bev w = Some (0, w1) /\
    led_output_listener_cb c e w1 = Some (0, w2) /\
    led_msgq w2
    = led_msgq w ++ [battery_warning_item c; connectivity_item c e] /\
    led_process_thread (length (led_msgq w) + 2) c w2 = Some (tt, w3) /\
    get_calls (log w3)
    = get_calls (log w) ++ led_msgq w
      ++ [battery_warning_item c; connectivity_item c e] /\
    led_msgq w3 = [].
Proof.
  intros Hi Hlen [H0 Hc].
  set (w1 := put_world (battery_warning_item c) w).
  set (w2 := put_world (connectivity_item c e) w1).
  assert (Hq1 : led_msgq w1 = led_msgq w ++ [battery_warning_item c]).
  { unfold w1. cbn [put_world led_msgq].
    rewrite try_enqueue_room; [reflexivity | unfold led_msgq_capacity; lia]. }
  assert (Hq2 : led_msgq w2
                = led_msgq w ++ [battery_warning_item c; connectivity_item c e]).
  { unfold w2. cbn [put_world led_msgq]. rewrite Hq1.
    rewrite try_enqueue_room.
    - cbn [snd]. rewrite <- app_assoc. reflexivity.
    - rewrite length_app. unfold led_msgq_capacity. simpl. lia. }
  assert (Hlen2 : length (led_msgq w2) = (length (led_msgq w) + 2)%nat).
  { rewrite Hq2, length_app. reflexivity. }
  exists w1, w2, (drained_world c (length (led_msgq w) + 2) w2).
  split.
  { rewrite led_battery_listener_cb_run, Hi.
    destruct (Z.ltb_spec 0 (state_of_charge bev)); [|lia].
    destruct (Z.leb_spec (state_of_charge bev) (BATTERY_LEVEL_CRITICAL c));
      [|lia].
    reflexivity. }
  split.
  { rewrite led_output_listener_cb_run.
    change (initialized w1) with (initialized w). rewrite Hi. reflexivity. }
  split; [exact Hq2|].
  split; [apply led_process_thread_run; lia|].
  unfold drained_world. cbn [log led_msgq].
  rewrite <- Hlen2, firstn_all, skipn_all.
  destruct (round_actions_readings c (led_msgq w2)) as [Hg _].
  rewrite get_calls_app, Hg, Hq2.
  split; [|reflexivity].
  unfold w2, w1. cbn [put_world log]. rewrite !get_calls_app.
  cbn [get_calls]. rewrite !app_nil_r. reflexivity.
Qed.

Lemma warning_then_connectivity_in_order_witness :
  exists w1 w2 w3,
    led_battery_listener_cb
      (mk_config 1000 2000 100 500 80 20 5 true false false true true)
      (mk_battery_ev 4)
      {| led_msgq := []; initialized := true; led := false;
         soc_calls := 0%nat; log := [] |} = Some (0, w1) /\
    led_output_listener_cb
      (mk_config 1000 2000 100 500 80 20 5 true false false true true)
      (mk_env 0 true false false 0 (fun _ => 4)) w1 = Some (0, w2) /\
    led_process_thread 2
      (mk_config 1000 2000 100 500 80 20 5 true false false true true) w2
    = Some (tt, w3) /\
    get_calls (log w3) = [mk_blink_item BLINK_FAST 2000 false 0;
                          mk_blink_item BLINK_OFF 1000 false 0].
Proof.
  destruct (warning_then_connectivity_in_order
              (mk_config 1000 2000 100 500 80 20 5 true false false true true)
              (mk_env 0 true false false 0 (fun _ => 4))
              (mk_battery_ev 4)
              {| led_msgq := []; initialized := true; led := false;
                 soc_calls := 0%nat; log := [] |} eq_refl)
    as [w1 [w2 [w3 [H1 [H2 [_ [H3 [H4 _]]]]]]]].
  - simpl. lia.
  - simpl. lia.
  - exists w1, w2, w3. split; [exact H1|]. split; [exact H2|].
    split; [exact H3 | exact H4].
Defined.

Lemma layer_rounds_all_light (c : config) (n : nat) :
  filter lights_led (layer_rounds c n) = layer_rounds c n.
Proof.
  destruct n as [|m]; [reflexivity|]. simpl.
  rewrite filter_app. simpl. f_equal.
  induction m as [|m IH]; simpl; [reflexivity | rewrite IH; reflexivity].
Qed.

(** X10.  With the gate open and the queue empty, activating a layer
    while the highest active layer is [n] (at most 16) and then letting
    the renderer run [n] rounds switches the LED on exactly [n] times
    and leaves the queue empty: one blink for each layer above the
    base. *)
Theorem layer_activation_blinks_n_times (c : config) (e : env)
    (eh : zmk_layer_state_changed) (n : nat) (w : world) :
  initialized w = true ->
  state eh = true ->
  led_msgq w = [] ->
  zmk_keymap_highest_layer_active e = Z.of_nat n ->
  (n <= 16)%nat ->
  exists w1 w2,
    led_layer_listener_cb c e eh w = Some (0, w1) /\
    length (led_msgq w1) = n /\
    led_process_thread n c w1 = Some (tt, w2) /\
    led_on_count (log w2) = (led_on_count (log w) + n)%nat /\
    led_msgq w2 = [].
Proof.
  intros Hi Hs Hq Hn Hle.
  set (w1 := put_all (layer_rounds c n) w).
  assert (Hq1 : led_msgq w1 = layer_rounds c n).
  { unfold w1. rewrite put_all_room; rewrite Hq; [reflexivity|].
    rewrite layer_rounds_length. simpl. exact Hle. }
  assert (Hlen1 : length (led_msgq w1) = n).
  { rewrite Hq1. apply layer_rounds_length. }
  exists w1, (drained_world c n w1).
  split.
  { rewrite led_layer_listener_cb_run, Hi, Hs, Hn, Nat2Z.id. reflexivity. }
  split; [exact Hlen1|].
  split; [apply led_process_thread_run; lia|].
  unfold drained_world. cbn [log led_msgq].
  rewrite <- Hlen1 at 1 3. rewrite firstn_all, skipn_all.
  destruct (round_actions_readings c (led_msgq w1)) as [_ [_ [Hc _]]].
  rewrite led_on_count_app, Hc, Hq1, layer_rounds_all_light,
    layer_rounds_length.
  destruct (put_all_frame (layer_rounds c n) w) as [_ [_ [_ [_ Hl]]]].
  fold w1 in Hl. rewrite Hl. split; reflexivity.
Qed.

Lemma layer_activation_blinks_n_times_witness :
  exists w1 w2,
    led_layer_listener_cb
      (mk_config 1000 2000 100 500 80 20 5 true false false true true)
      (mk_env 0 true false false 3 (fun _ => 90))
      (mk_layer_ev 3 true 0)
      {| led_msgq := []; initialized := true; led := false;
         soc_calls := 0%nat; log := [] |} = Some (0, w1) /\
    led_process_thread 3
      (mk_config 1000 2000 100 500 80 20 5 true false false true true) w1
    = Some (tt, w2) /\
    led_on_count (log w2) = 3%nat.
Proof.
  destruct (layer_activation_blinks_n_times
              (mk_config 1000 2000 100 500 80 20 5 true false false true true)
              (mk_env 0 true false false 3 (fun _ => 90))
              (mk_layer_ev 3 true 0) 3%nat
              {| led_msgq := []; initialized := true; led := false;
                 soc_calls := 0%nat; log := [] |}
              eq_refl eq_refl eq_refl eq_refl)
    as [w1 [w2 [H1 [_ [H2 [H3 _]]]]]].
  - lia.
  - exists w1, w2. split; [exact H1|]. split; [exact H2 | exact H3].
Defined.
